(** * fhir-collector: the resumable harvesting pipeline of [main.go]

    A shallow embedding of the collector's Go code and the properties of its
    retrying fetch, its per-encounter enrichment and its day-by-day cursor
    loop.

    The program talks to four outside parties: the FHIR server (HTTP GET),
    the Redis checkpoint store, the SQS queue and the process environment.
    Their answers are not decided by the program, so they are collected in a
    record [Env] over which every theorem quantifies.  What the program does
    to them is recorded in a [World]: the chronological trace of the calls it
    issued, the contents of the store and the messages accepted by the queue.
    Go code becomes a function [World -> Outcome A] that either returns, or
    ends the process ([log.Fatal], a run-time panic).

    [processDate] starts a goroutine for every entry of a batch before it
    waits for any of them.  [goroutines] lists these calls and [entry_call]
    is the one started for a given position; what one candidate's call does
    is stated on that call alone, from an arbitrary world.  [fanout] runs
    the calls one after the other in the order of the batch, which is one of
    the schedules the program can take.  While every call returns, the
    schedules differ only in the order of the calls issued; when a call ends
    the process they differ in what the others had done by then: a sibling
    anywhere in the batch may crash first, and siblings' commands may come
    before a crash.  So [fanout] is used only where the batch is assumed to
    return, or for bounds and frames that do not depend on the order; no
    theorem fixes the world in which a batch crashes.

    [log.Printf] lines only write to the log and are left out. *)

From Stdlib Require Import Ascii.
From stdpp Require Import gmap strings pretty list.

Local Open Scope string_scope.
Local Open Scope list_scope.
Local Open Scope Z_scope.

(** ** Go values *)

(** A Go [error]: [fmt.Errorf] without [%w] (or [errors.New]) builds a leaf,
    [fmt.Errorf("...%w", err)] wraps its cause. *)
Inductive error : Type :=
| ErrNew (msg : string)
| ErrWrap (msg : string) (cause : error).

(** [errors.Unwrap] followed along the chain: [e] is [target] or wraps it. *)
Fixpoint carries (e target : error) : Prop :=
  e = target \/
  match e with
  | ErrNew _ => False
  | ErrWrap _ cause => carries cause target
  end.

(** A Go pair [(value, error)] of which exactly one side is meaningful. *)
Inductive result (A : Type) : Type :=
| Ok (a : A)
| Err (e : error).
Arguments Ok {A} a.
Arguments Err {A} e.

(** [int64] wrap-around, as Go's arithmetic on [time.Duration] has it. *)
Definition wrap64 (z : Z) : Z := (z + 2 ^ 63) mod 2 ^ 64 - 2 ^ 63.

(** [time.Second], in nanoseconds. *)
Definition Second : Z := 1000000000.

(** A [time.Time] at second resolution in UTC: seconds since the Unix epoch. *)
Abbreviation Time := Z (only parsing).

(** [24 * time.Hour], in seconds. *)
Definition day : Z := 86400.

(** ** The FHIR payload types *)

Record RefT := { Reference : string }.
Record ClassT := { System : string; Code : string }.
Record Period := { Start : Time; End_ : Time }.
Record ParticipantT := { Individual : RefT }.

(** [Participant] is a slice: [None] is Go's [nil] slice, [Some l] a non-nil
    slice with the elements [l] ([Some []] is what [json.Unmarshal] makes of
    the JSON array [[]]). *)
Record Encounter := {
  enc_ResourceType : string;
  enc_ID : string;
  enc_Status : string;
  enc_Class : ClassT;
  enc_Period : Period;
  enc_Participant : option (list ParticipantT);
  enc_Subject : RefT
}.

Record EncounterDB := {
  edb_FhirId : string;
  edb_FullUrl : string;
  edb_Status : string;
  edb_Class : string;
  edb_Period : Period;
  edb_PractitionerId : string;
  edb_PatientId : string
}.

Record BundleEntry := { FullUrl : string; Resource : Encounter }.
Record Bundle := { Entry : list BundleEntry }.

Record HumanName := { Family : string; Given : list string }.

Record Practitioner := {
  pr_ResourceType : string;
  pr_ID : string;
  pr_Name : list HumanName
}.

Record PractitionerDB := {
  prdb_FhirId : string;
  prdb_GivenName : string;
  prdb_FamilyName : string
}.

Record Patient := {
  pt_ResourceType : string;
  pt_ID : string;
  pt_Name : list HumanName;
  pt_BirthDate : string;
  pt_Gender : string
}.

Record PatientDB := {
  ptdb_FhirId : string;
  ptdb_GivenName : string;
  ptdb_FamilyName : string;
  ptdb_BirthDate : string;
  ptdb_Gender : string
}.

Record FHIRMessage := {
  msg_Encounter : EncounterDB;
  msg_Practitioner : PractitionerDB;
  msg_Patient : PatientDB
}.

(** ** The outside world *)

(** What one call of [fetchData] meets. *)
Inductive HttpReply : Type :=
| BadRequest (e : error)                       (* http.NewRequestWithContext fails *)
| NoResponse (e : error)                       (* client.Do fails: transport, timeout *)
| Response (status : Z) (body : result string). (* a status line, then io.ReadAll *)

(** The calls the program issues, in the order it issues them. *)
Inductive Event : Type :=
| EvFetch (url : string)                 (* one call of fetchData: one attempt *)
| EvSleep (d : Z)                        (* time.Sleep(d), d in nanoseconds *)
| EvRedisGet (key : string)
| EvRedisSet (key value : string)
| EvRedisSAdd (key member : string)
| EvSqsSend (queueUrl body groupId : string).

Record SqsMessage := {
  QueueUrl : string;
  MessageBody : string;
  MessageGroupId : string
}.

(** The store keeps plain strings and sets in two tables: the program keeps a
    string under [last_processed_date] only and sets under the two quarantine
    keys only. *)
Record World := {
  trace : list Event;
  strings : gmap string string;
  sets : gmap string (gset string);
  queue : list SqsMessage
}.

(** The number of calls issued so far; the outside answers by it. *)
Definition tick (w : World) : nat := length (trace w).

(** The answers of the outside and of the Go libraries the program calls.
    The [nat] argument is the [tick] at which the call is issued, so that an
    answer may change from one call to the next. *)
Record Env := {
  os_Getenv : string -> string;
  rotatelogs_New : option error;
  http_Do : nat -> string -> HttpReply;
  redis_fault : nat -> option error;
  aws_LoadDefaultConfig : nat -> option error;
  sqs_fault : nat -> option error;
  json_Unmarshal_Bundle : string -> result Bundle;
  json_Unmarshal_Practitioner : string -> result Practitioner;
  json_Unmarshal_Patient : string -> result Patient;
  json_Marshal : FHIRMessage -> result string;
  time_Parse : string -> result Time;
  time_Format : Time -> string
}.

(** ** Running Go code *)

Inductive Outcome (A : Type) : Type :=
| Done (a : A) (w : World)   (* the call returned [a] *)
| Fatal (w : World)          (* log.Fatal: the process exits with status 1 *)
| Panic (w : World).         (* an unrecovered run-time panic ends the process *)
Arguments Done {A} a w.
Arguments Fatal {A} w.
Arguments Panic {A} w.

Definition Go (A : Type) : Type := World -> Outcome A.

Definition ret {A} (a : A) : Go A := fun w => Done a w.

Definition bind {A B} (m : Go A) (k : A -> Go B) : Go B :=
  fun w =>
    match m w with
    | Done a w' => k a w'
    | Fatal w' => Fatal w'
    | Panic w' => Panic w'
    end.

Notation "'do' x <- m ; k" := (bind m (fun x => k))
  (at level 10, x name, m at level 100, k at level 200).
Notation "m ;; k" := (bind m (fun _ => k))
  (at level 100, k at level 200, right associativity).

Definition log_Fatal {A} : Go A := fun w => Fatal w.
Definition panic {A} : Go A := fun w => Panic w.

(** The world an outcome ends in. *)
Definition final {A} (o : Outcome A) : World :=
  match o with
  | Done _ w => w
  | Fatal w => w
  | Panic w => w
  end.

Definition emit (e : Event) (w : World) : World :=
  {| trace := trace w ++ [e]; strings := strings w; sets := sets w; queue := queue w |}.

(** The members of the set stored under [key] (a missing key is the empty set). *)
Definition smembers (key : string) (w : World) : gset string :=
  default ∅ (sets w !! key).

Section Collector.

Variable env : Env.

(** *** The store client

    A command either fails as a whole ([redis_fault]) and leaves the store as
    it was, or is applied. *)

Definition redis_Get (key : string) : Go (result (option string)) :=
  fun w =>
    let w' := emit (EvRedisGet key) w in
    match redis_fault env (tick w) with
    | Some e => Done (Err e) w'
    | None => Done (Ok (strings w !! key)) w'
    end.

Definition redis_Set (key value : string) : Go (option error) :=
  fun w =>
    let w' := emit (EvRedisSet key value) w in
    match redis_fault env (tick w) with
    | Some e => Done (Some e) w'
    | None =>
        Done None {| trace := trace w'; strings := <[key := value]> (strings w');
                     sets := sets w'; queue := queue w' |}
    end.

Definition redis_SAdd (key member : string) : Go (option error) :=
  fun w =>
    let w' := emit (EvRedisSAdd key member) w in
    match redis_fault env (tick w) with
    | Some e => Done (Some e) w'
    | None =>
        Done None {| trace := trace w'; strings := strings w';
                     sets := <[key := {[member]} ∪ smembers key w']> (sets w');
                     queue := queue w' |}
    end.

Definition time_Sleep (d : Z) : Go unit :=
  fun w => Done tt (emit (EvSleep d) w).

(** *** fetchData *)

Definition fetchData (url : string) : Go (result string) :=
  fun w =>
    let w' := emit (EvFetch url) w in
    match http_Do env (tick w) url with
    | BadRequest e => Done (Err (ErrWrap "error creating request: " e)) w'
    | NoResponse e => Done (Err (ErrWrap "error calling API: " e)) w'
    | Response status body =>
        if bool_decide (status ≠ 200)
        then Done (Err (ErrNew ("API returned status " +:+ pretty status))) w'
        else match body with
             | Err e => Done (Err (ErrWrap "error reading API response: " e)) w'
             | Ok b => Done (Ok b) w'
             end
    end.

(** *** fetchDataWithRetry *)

(** [time.Second * time.Duration(1<<uint(i))]: both the shift and the product
    are taken in [int64]. *)
Definition waitTime (i : Z) : Z := wrap64 (Second * wrap64 (Z.shiftl 1 i)).

(** The [for i := ...; i < maxRetries; i++] loop with [n] iterations left. *)
Fixpoint retry_loop (url : string) (n : nat) (i : Z) : Go (result string) :=
  match n with
  | O => ret (Err (ErrNew "All attempts were failed"))
  | S n' =>
      (if bool_decide (0 < i) then time_Sleep (waitTime i) else ret tt) ;;
      do r <- fetchData url ;
      match r with
      | Ok data => ret (Ok data)
      | Err _ => retry_loop url n' (i + 1)
      end
  end.

Definition fetchDataWithRetry (url : string) (maxRetries : Z) : Go (result string) :=
  retry_loop url (Z.to_nat maxRetries) 0.

(** *** extractReferenceID *)

(** [strings.Split(s, sep)] for a one-character separator. *)
Fixpoint strings_Split (s : string) (sep : ascii) : list string :=
  match s with
  | EmptyString => [EmptyString]
  | String c s' =>
      if bool_decide (c = sep) then EmptyString :: strings_Split s' sep
      else match strings_Split s' sep with
           | [] => [String c EmptyString]
           | p :: ps => String c p :: ps
           end
  end.

Definition extractReferenceID (ref : string) : string :=
  let parts := strings_Split ref "/"%char in
  if bool_decide (1 < length parts)%nat then List.last parts ref else ref.

(** *** sendToSQS *)

Definition sqs_SendMessage (queueUrl body groupId : string) : Go (option error) :=
  fun w =>
    let w' := emit (EvSqsSend queueUrl body groupId) w in
    match sqs_fault env (tick w) with
    | Some e => Done (Some e) w'
    | None =>
        Done None {| trace := trace w'; strings := strings w'; sets := sets w';
                     queue := queue w' ++ [{| QueueUrl := queueUrl; MessageBody := body;
                                              MessageGroupId := groupId |}] |}
    end.

Definition sendToSQS (message : FHIRMessage) (clientID : string) : Go (option error) :=
  do cfg <- (fun w => Done (aws_LoadDefaultConfig env (tick w)) w) ;
  match cfg with
  | Some err => ret (Some (ErrWrap "error loading AWS config: " err))
  | None =>
      let queueURL := os_Getenv env "SQS_QUEUE_URL" in
      (if bool_decide (queueURL = "") then log_Fatal else ret tt) ;;
      match json_Marshal env message with
      | Err err => ret (Some (ErrWrap "error converting message to JSON: " err))
      | Ok msgBody =>
          do err <- sqs_SendMessage queueURL msgBody clientID ;
          match err with
          | Some err => ret (Some (ErrWrap "error sending message to SQS: " err))
          | None => ret None
          end
      end
  end.

(** *** processEncounter *)

Definition is_nil {A} (s : option (list A)) : bool :=
  match s with
  | None => true
  | Some _ => false
  end.

(** [len(x.Name) > 0 && len(x.Name[0].Given) > 0] *)
Definition has_given_name (names : list HumanName) : bool :=
  match names with
  | [] => false
  | n0 :: _ => bool_decide (0 < length (Given n0))%nat
  end.

(** [x.Name[0].Given[0]] and [x.Name[0].Family], read after the check above. *)
Definition first_given (names : list HumanName) : string :=
  match names with
  | n0 :: _ => List.hd "" (Given n0)
  | [] => ""
  end.

Definition first_family (names : list HumanName) : string :=
  match names with
  | n0 :: _ => Family n0
  | [] => ""
  end.

Definition baseR4 : string := "https://hapi.fhir.org/baseR4/".

(** The first [if] of [processEncounter]. *)
Definition missing_field (enc : Encounter) (fullUrl : string) : bool :=
  bool_decide (enc_Status enc = "") || bool_decide (Code (enc_Class enc) = "")
  || is_nil (enc_Participant enc) || bool_decide (Reference (enc_Subject enc) = "")
  || bool_decide (fullUrl = "").

Definition processEncounter (enc : Encounter) (fullUrl clientID : string) : Go unit :=
  if missing_field enc fullUrl then
    redis_SAdd "invalid_encounters" fullUrl ;; ret tt
  else
    match enc_Participant enc with
    | None | Some [] => panic                     (* enc.Participant[0]: index out of range *)
    | Some (p0 :: _) =>
    let practitionerRef := Reference (Individual p0) in
    if bool_decide (practitionerRef = "") then ret tt else
    let practitionerId := extractReferenceID (Reference (Individual p0)) in
    let patientRef := Reference (enc_Subject enc) in
    if bool_decide (patientRef = "") then ret tt else
    let patientId := extractReferenceID (Reference (enc_Subject enc)) in
    let encParsed :=
      {| edb_FhirId := enc_ID enc; edb_FullUrl := fullUrl; edb_Status := enc_Status enc;
         edb_Class := Code (enc_Class enc);
         edb_Period := {| Start := Start (enc_Period enc); End_ := End_ (enc_Period enc) |};
         edb_PractitionerId := practitionerId; edb_PatientId := patientId |} in
    let practitionerURL := baseR4 +:+ practitionerRef in
    do practitionerData <- fetchDataWithRetry practitionerURL 3 ;
    match practitionerData with
    | Err _ => redis_SAdd "invalid_encounters" fullUrl ;; ret tt
    | Ok practitionerData =>
    match json_Unmarshal_Practitioner env practitionerData with
    | Err _ => redis_SAdd "invalid_encounters" fullUrl ;; ret tt
    | Ok practitioner =>
    if negb (has_given_name (pr_Name practitioner)) then
      redis_SAdd "invalid_encounters" fullUrl ;; ret tt
    else
    let practitionerParsed :=
      {| prdb_FhirId := pr_ID practitioner;
         prdb_GivenName := first_given (pr_Name practitioner);
         prdb_FamilyName := first_family (pr_Name practitioner) |} in
    let patientURL := baseR4 +:+ patientRef in
    do patientData <- fetchDataWithRetry patientURL 3 ;
    match patientData with
    | Err _ => redis_SAdd "invalid_encounters" fullUrl ;; ret tt
    | Ok patientData =>
    match json_Unmarshal_Patient env patientData with
    | Err _ => redis_SAdd "invalid_encounters" fullUrl ;; ret tt
    | Ok patient =>
    if negb (has_given_name (pt_Name patient)) then
      redis_SAdd "invalid_encounters" fullUrl ;; ret tt
    else
    let patientParsed :=
      {| ptdb_FhirId := pt_ID patient;
         ptdb_GivenName := first_given (pt_Name patient);
         ptdb_FamilyName := first_family (pt_Name patient);
         ptdb_BirthDate := pt_BirthDate patient;
         ptdb_Gender := pt_Gender patient |} in
    let message :=
      {| msg_Encounter := encParsed; msg_Practitioner := practitionerParsed;
         msg_Patient := patientParsed |} in
    do err <- sendToSQS message clientID ;
    match err with
    | Some _ => redis_SAdd "invalid_encounters" fullUrl ;; ret tt
    | None => ret tt
    end
    end end end end
    end.

(** *** processDate *)

(** The group key of the entry at position [i] of a day's batch. *)
Definition clientIDFor (i : nat) : string :=
  if bool_decide (i mod 2 = 1)%nat then "002" else "001".

(** The goroutine started for the entry at position [i]:
    [processEncounter(ctx, entry.Resource, entry.FullUrl, clientID)]. *)
Definition entry_call (i : nat) (entry : BundleEntry) : Go unit :=
  processEncounter (Resource entry) (FullUrl entry) (clientIDFor i).

(** The goroutines the [for i, entry := range bundle.Entry] loop starts, in
    the order of the batch.  All of them are started before [wg.Wait]. *)
Definition goroutines (entries : list BundleEntry) : list (Go unit) :=
  imap entry_call entries.

(** The [for i, entry := range bundle.Entry] loop from position [i] on, with
    the calls run one after the other in the order of the batch: one
    schedule of the goroutines.  It stops at the first call that ends the
    process; in the program the other goroutines are already running then,
    so this definition says what a batch does only when it returns, and how
    much a batch does at most. *)
Fixpoint fanout (i : nat) (entries : list BundleEntry) : Go unit :=
  match entries with
  | [] => ret tt
  | entry :: rest =>
      processEncounter (Resource entry) (FullUrl entry) (clientIDFor i) ;;
      fanout (S i) rest
  end.

Definition encounterURL (date : string) : string :=
  "https://hapi.fhir.org/baseR4/Encounter?date=" +:+ date.

Definition processDate (date : string) : Go (option error) :=
  let url := encounterURL date in
  let maxRetries := 3 in
  do data <- fetchDataWithRetry url maxRetries ;
  match data with
  | Err err =>
      redis_SAdd "unprocessed_dates" date ;;
      ret (Some (ErrWrap ("falha ao processar data " +:+ date +:+ ": ") err))
  | Ok data =>
      match json_Unmarshal_Bundle env data with
      | Err err => ret (Some (ErrWrap "erro ao parsear JSON de encontros: " err))
      | Ok bundle =>
          if bool_decide (length (Entry bundle) = 0%nat) then ret None
          else fanout 0 (Entry bundle) ;; ret None
      end
  end.

(** *** main *)

Definition initLogger : Go unit :=
  match rotatelogs_New env with
  | Some _ => log_Fatal
  | None => ret tt
  end.

Definition initCache : Go unit := ret tt.

(** [main] up to its loop: the end date and the date to start from. *)
Definition resume : Go (Time * Time) :=
  initLogger ;;
  initCache ;;
  let startDateStr := os_Getenv env "START_DATE" in
  let endDateStr := os_Getenv env "END_DATE" in
  if bool_decide (startDateStr = "") || bool_decide (endDateStr = "") then log_Fatal else
  match time_Parse env startDateStr with
  | Err _ => log_Fatal
  | Ok startDate =>
  match time_Parse env endDateStr with
  | Err _ => log_Fatal
  | Ok endDate =>
  do got <- redis_Get "last_processed_date" ;
  match got with
  | Err _ => log_Fatal
  | Ok v =>
      let lastProcessedDateStr := default "" v in
      if bool_decide (lastProcessedDateStr = "") then ret (startDate, endDate)
      else match time_Parse env lastProcessedDateStr with
           | Err _ => log_Fatal
           | Ok currentDate => ret (currentDate, endDate)
           end
  end
  end end.

(** One turn of the [for] loop of [main] at [currentDate]: [None] when the
    loop breaks, otherwise the date of the next turn. *)
Definition loop_step (endDate currentDate : Time) : Go (option Time) :=
  if bool_decide (endDate < currentDate) then ret None
  else
    let dateStr := time_Format env currentDate in
    do err <- processDate dateStr ;
    match err with
    | Some _ => ret (Some currentDate)
    | None =>
        redis_Set "last_processed_date" dateStr ;;
        ret (Some (currentDate + day))
    end.

(** At most [fuel] turns of the loop; [Some d] when it is still running and
    about to process [d]. *)
Fixpoint main_loop (fuel : nat) (endDate currentDate : Time) : Go (option Time) :=
  match fuel with
  | O => ret (Some currentDate)
  | S fuel' =>
      do next <- loop_step endDate currentDate ;
      match next with
      | None => ret None
      | Some d => main_loop fuel' endDate d
      end
  end.

Definition main (fuel : nat) : Go (option Time) :=
  do dates <- resume ;
  main_loop fuel (snd dates) (fst dates).

End Collector.

(** ** A concrete outside world

    Used to run the model: a proleptic Gregorian calendar for the layout
    [2006-01-02], a FHIR server that answers from a fixed table, and decoders
    that know a handful of payloads. *)

Module Calendar.

(** Days since 1970-01-01 to (year, month, day). *)
Definition civil_from_days (z0 : Z) : Z * Z * Z :=
  let z := z0 + 719468 in
  let era := z `div` 146097 in
  let doe := z - era * 146097 in
  let yoe := (doe - doe `div` 1460 + doe `div` 36524 - doe `div` 146096) `div` 365 in
  let doy := doe - (365 * yoe + yoe `div` 4 - yoe `div` 100) in
  let mp := (5 * doy + 2) `div` 153 in
  let d := doy - (153 * mp + 2) `div` 5 + 1 in
  let m := if bool_decide (mp < 10) then mp + 3 else mp - 9 in
  let y := yoe + era * 400 in
  (if bool_decide (m <= 2) then y + 1 else y, m, d).

Definition days_from_civil (y0 m d : Z) : Z :=
  let y := if bool_decide (m <= 2) then y0 - 1 else y0 in
  let era := y `div` 400 in
  let yoe := y - era * 400 in
  let doy := (153 * (if bool_decide (2 < m) then m - 3 else m + 9) + 2) `div` 5 + d - 1 in
  let doe := yoe * 365 + yoe `div` 4 - yoe `div` 100 + doy in
  era * 146097 + doe - 719468.

Definition digit (n : Z) : ascii := ascii_of_nat (48 + Z.to_nat (n `mod` 10)).

Definition pad2 (n : Z) : string :=
  String (digit (n `div` 10)) (String (digit n) EmptyString).

Definition pad4 (n : Z) : string := pad2 (n `div` 100) +:+ pad2 n.

Definition Format (t : Time) : string :=
  match civil_from_days (t `div` day) with
  | (y, m, d) => pad4 y +:+ "-" +:+ pad2 m +:+ "-" +:+ pad2 d
  end.

Definition digit_val (c : ascii) : option Z :=
  let n := Z.of_nat (nat_of_ascii c) in
  if bool_decide (48 <= n <= 57) then Some (n - 48) else None.

Definition number (cs : list ascii) : option Z :=
  foldl (fun acc c => a ← acc; v ← digit_val c; Some (10 * a + v)) (Some 0) cs.

Definition Parse (s : string) : result Time :=
  match s with
  | String y1 (String y2 (String y3 (String y4 (String "-" (String m1 (String m2
      (String "-" (String d1 (String d2 EmptyString))))))))) =>
      match number [y1; y2; y3; y4], number [m1; m2], number [d1; d2] with
      | Some y, Some m, Some d =>
          if bool_decide (civil_from_days (days_from_civil y m d) = (y, m, d))
          then Ok (days_from_civil y m d * day)
          else Err (ErrNew "parsing time: day out of range")
      | _, _, _ => Err (ErrNew "parsing time: cannot parse")
      end
  | _ => Err (ErrNew "parsing time: cannot parse")
  end.

End Calendar.

Module Scenario.

Definition encounter (status : string) (participant : option (list ParticipantT)) : Encounter :=
  {| enc_ResourceType := "Encounter"; enc_ID := "e1"; enc_Status := status;
     enc_Class := {| System := "http://terminology.hl7.org/CodeSystem/v3-ActCode";
                     Code := "AMB" |};
     enc_Period := {| Start := 1735725600; End_ := 1735729200 |};
     enc_Participant := participant;
     enc_Subject := {| Reference := "Patient/q1" |} |}.

Definition doctor : ParticipantT := {| Individual := {| Reference := "Practitioner/p1" |} |}.

(** A complete encounter, one without status, one whose participant array
    is present and empty. *)
Definition enc_ok : Encounter := encounter "finished" (Some [doctor]).
Definition enc_no_status : Encounter := encounter "" (Some [doctor]).
Definition enc_no_participant : Encounter := encounter "finished" (Some []).

(** A complete encounter whose practitioner the server does not know. *)
Definition enc_unknown_doctor : Encounter :=
  encounter "finished" (Some [ {| Individual := {| Reference := "Practitioner/p9" |} |} ]).

(** A complete encounter whose first participant carries no reference. *)
Definition enc_blank_doctor : Encounter :=
  encounter "finished" (Some [ {| Individual := {| Reference := "" |} |}; doctor ]).

Definition url_e1 : string := "https://hapi.fhir.org/baseR4/Encounter/e1".
Definition url_e2 : string := "https://hapi.fhir.org/baseR4/Encounter/e2".

Definition entry_e1 : BundleEntry := {| FullUrl := url_e1; Resource := enc_ok |}.
Definition entry_e2 : BundleEntry := {| FullUrl := url_e2; Resource := enc_no_status |}.

Definition bundle_two : Bundle := {| Entry := [entry_e1; entry_e2] |}.

Definition practitioner_p1 : Practitioner :=
  {| pr_ResourceType := "Practitioner"; pr_ID := "p1";
     pr_Name := [ {| Family := "Silva"; Given := ["Ana"] |} ] |}.

Definition patient_q1 : Patient :=
  {| pt_ResourceType := "Patient"; pt_ID := "q1";
     pt_Name := [ {| Family := "Souza"; Given := ["Rui"; "Luis"] |} ];
     pt_BirthDate := "1980-05-17"; pt_Gender := "male" |}.

Definition syntax_error : error := ErrNew "invalid character '<' looking for beginning of value".

Definition decode {A} (table : list (string * A)) (data : string) : result A :=
  match list_find (fun kv => fst kv = data) table with
  | Some (_, (_, a)) => Ok a
  | None => Err syntax_error
  end.

Definition getenv (queueURL : string) (name : string) : string :=
  if bool_decide (name = "START_DATE") then "2025-01-01"
  else if bool_decide (name = "END_DATE") then "2025-01-02"
  else if bool_decide (name = "VALKEY_URI") then "valkey:6379"
  else if bool_decide (name = "SQS_QUEUE_URL") then queueURL
  else "".

Definition queue_url : string :=
  "http://localstack:4566/000000000000/fhir-ingestion.fifo".

(** The server in good health: two encounters on 2025-01-01, none the day after. *)
Definition server_up (t : nat) (url : string) : HttpReply :=
  if bool_decide (url = "https://hapi.fhir.org/baseR4/Encounter?date=2025-01-01")
  then Response 200 (Ok "bundle-two")
  else if bool_decide (url = "https://hapi.fhir.org/baseR4/Encounter?date=2025-01-02")
  then Response 200 (Ok "bundle-empty")
  else if bool_decide (url = "https://hapi.fhir.org/baseR4/Practitioner/p1")
  then Response 200 (Ok "practitioner-p1")
  else if bool_decide (url = "https://hapi.fhir.org/baseR4/Patient/q1")
  then Response 200 (Ok "patient-q1")
  else Response 404 (Ok "").

(** Every request is answered with status 500. *)
Definition server_down (t : nat) (url : string) : HttpReply := Response 500 (Ok "").

(** Every request is answered with status 200 and an HTML page. *)
Definition server_html (t : nat) (url : string) : HttpReply :=
  Response 200 (Ok "<html>Service Unavailable</html>").

(** The first two requests time out, the third is answered. *)
Definition server_slow (t : nat) (url : string) : HttpReply :=
  if bool_decide (t < 4)%nat
  then NoResponse (ErrNew "context deadline exceeded")
  else server_up t url.

Definition never : nat -> option error := fun _ => None.
Definition always : nat -> option error := fun _ => Some (ErrNew "connection refused").

Definition world (queueURL : string) (http : nat -> string -> HttpReply)
    (redis sqs : nat -> option error) : Env :=
  {| os_Getenv := getenv queueURL;
     rotatelogs_New := None;
     http_Do := http;
     redis_fault := redis;
     aws_LoadDefaultConfig := never;
     sqs_fault := sqs;
     json_Unmarshal_Bundle :=
       decode [("bundle-two", bundle_two); ("bundle-empty", {| Entry := [] |})];
     json_Unmarshal_Practitioner := decode [("practitioner-p1", practitioner_p1)];
     json_Unmarshal_Patient := decode [("patient-q1", patient_q1)];
     json_Marshal := fun m => Ok ("{" +:+ edb_FullUrl (msg_Encounter m) +:+ "}");
     time_Parse := Calendar.Parse;
     time_Format := Calendar.Format |}.

Definition healthy : Env := world queue_url server_up never never.
Definition no_queue_url : Env := world "" server_up never never.
Definition upstream_down : Env := world queue_url server_down never never.
Definition upstream_html : Env := world queue_url server_html never never.
Definition upstream_slow : Env := world queue_url server_slow never never.
Definition store_down : Env := world queue_url server_up always never.
Definition queue_down : Env := world queue_url server_up never always.

(** No queue URL, and an AWS configuration that does not load. *)
Definition no_queue_no_config : Env :=
  {| os_Getenv := os_Getenv no_queue_url;
     rotatelogs_New := rotatelogs_New no_queue_url;
     http_Do := http_Do no_queue_url;
     redis_fault := redis_fault no_queue_url;
     aws_LoadDefaultConfig := fun _ => Some (ErrNew "invalid retry mode");
     sqs_fault := sqs_fault no_queue_url;
     json_Unmarshal_Bundle := json_Unmarshal_Bundle no_queue_url;
     json_Unmarshal_Practitioner := json_Unmarshal_Practitioner no_queue_url;
     json_Unmarshal_Patient := json_Unmarshal_Patient no_queue_url;
     json_Marshal := json_Marshal no_queue_url;
     time_Parse := time_Parse no_queue_url;
     time_Format := time_Format no_queue_url |}.

(** A fresh start: nothing issued, nothing stored, nothing queued. *)
Definition w0 : World := {| trace := []; strings := ∅; sets := ∅; queue := [] |}.

(** The store as a run that completed 2025-01-01 leaves it. *)
Definition w_resume : World :=
  {| trace := []; strings := {[ "last_processed_date" := "2025-01-01" ]};
     sets := ∅; queue := [] |}.

(** 2025-01-01 and 2025-01-02 at midnight UTC. *)
Definition jan1 : Time := 1735689600.
Definition jan2 : Time := 1735776000.

End Scenario.

(** ** What the claims speak of *)

(** One attempt, then after each failed attempt [i] (counted from 1) a sleep
    of [wait i] nanoseconds and the next attempt: [k] attempts in all. *)
Definition schedule (wait : Z -> Z) (url : string) (k : nat) : list Event :=
  match k with
  | O => []
  | S k' =>
      EvFetch url ::
      flat_map (fun i => [EvSleep (wait (Z.of_nat i)); EvFetch url]) (seq 1 k')
  end.

(** The schedule with a sleep of [2^i] seconds after failed attempt [i]. *)
Definition backoff_schedule : string -> nat -> list Event :=
  schedule (fun i => 2 ^ i * Second).

Definition is_fetch (e : Event) : bool :=
  match e with
  | EvFetch _ => true
  | _ => false
  end.

Definition is_sadd (e : Event) : bool :=
  match e with
  | EvRedisSAdd _ _ => true
  | _ => false
  end.

Definition is_send (e : Event) : bool :=
  match e with
  | EvSqsSend _ _ _ => true
  | _ => false
  end.

Definition count (p : Event -> bool) (t : list Event) : nat :=
  length (List.filter p t).

(** The validity test of the spec's reference resolver: some name entry has
    a given-name token. *)
Definition some_name_has_given (names : list HumanName) : bool :=
  existsb (fun n => bool_decide (0 < length (Given n))%nat) names.

(** A candidate misses a required field: its status, its class code, its
    subject reference or its identifying URL is empty, or it has no
    participant. *)
Definition lacks_required_field (enc : Encounter) (fullUrl : string) : Prop :=
  enc_Status enc = "" \/ Code (enc_Class enc) = "" \/
  default [] (enc_Participant enc) = [] \/
  Reference (enc_Subject enc) = "" \/ fullUrl = "".

(** A candidate that passes the validation of [processEncounter] and whose
    first participant refers to the practitioner [practitionerRef]. *)
Definition valid_candidate (enc : Encounter) (fullUrl practitionerRef : string) : Prop :=
  missing_field enc fullUrl = false /\
  (exists p0 ps, enc_Participant enc = Some (p0 :: ps) /\
                 Reference (Individual p0) = practitionerRef) /\
  practitionerRef <> "".

(** What becomes of a reference once its retrying fetch has returned
    [fetched]: the entity, unless the retries were exhausted, the response
    does not decode, or the entity fails the validity test. *)
Definition resolved {A} (decode : string -> result A) (names : A -> list HumanName)
    (fetched : result string) : option A :=
  match fetched with
  | Err _ => None
  | Ok data =>
      match decode data with
      | Err _ => None
      | Ok a => if has_given_name (names a) then Some a else None
      end
  end.

(** The message [processEncounter] assembles from a candidate and its two
    resolved references. *)
Definition enriched (enc : Encounter) (fullUrl : string) (practitioner : Practitioner)
    (patient : Patient) : FHIRMessage :=
  {| msg_Encounter :=
       {| edb_FhirId := enc_ID enc; edb_FullUrl := fullUrl; edb_Status := enc_Status enc;
          edb_Class := Code (enc_Class enc);
          edb_Period := {| Start := Start (enc_Period enc); End_ := End_ (enc_Period enc) |};
          edb_PractitionerId :=
            extractReferenceID
              (default "" (p ← enc_Participant enc; p0 ← head p; Some (Reference (Individual p0))));
          edb_PatientId := extractReferenceID (Reference (enc_Subject enc)) |};
     msg_Practitioner :=
       {| prdb_FhirId := pr_ID practitioner;
          prdb_GivenName := first_given (pr_Name practitioner);
          prdb_FamilyName := first_family (pr_Name practitioner) |};
     msg_Patient :=
       {| ptdb_FhirId := pt_ID patient;
          ptdb_GivenName := first_given (pt_Name patient);
          ptdb_FamilyName := first_family (pt_Name patient);
          ptdb_BirthDate := pt_BirthDate patient;
          ptdb_Gender := pt_Gender patient |} |}.

(** The same outside world with another value of [SQS_QUEUE_URL]. *)
Definition with_queue_url (queueURL : string) (env : Env) : Env :=
  {| os_Getenv := fun name =>
       if bool_decide (name = "SQS_QUEUE_URL") then queueURL else os_Getenv env name;
     rotatelogs_New := rotatelogs_New env;
     http_Do := http_Do env;
     redis_fault := redis_fault env;
     aws_LoadDefaultConfig := aws_LoadDefaultConfig env;
     sqs_fault := sqs_fault env;
     json_Unmarshal_Bundle := json_Unmarshal_Bundle env;
     json_Unmarshal_Practitioner := json_Unmarshal_Practitioner env;
     json_Unmarshal_Patient := json_Unmarshal_Patient env;
     json_Marshal := json_Marshal env;
     time_Parse := time_Parse env;
     time_Format := time_Format env |}.

(** Store commands [processEncounter] may issue for the candidate [fullUrl]. *)
Definition quarantines (fullUrl : string) (e : Event) : bool :=
  match e with
  | EvRedisSAdd key member =>
      bool_decide (key = "invalid_encounters") && bool_decide (member = fullUrl)
  | EvRedisGet _ | EvRedisSet _ _ => false
  | _ => true
  end.

(** What [processEncounter] may do for the candidate [fullUrl] between the
    worlds [w] and [w']: issue [nq] quarantine commands and [ns] sends, and
    nothing else that writes. *)
Definition frame (fullUrl : string) (nq ns : nat) (w w' : World) : Prop :=
  (exists delta,
      trace w' = trace w ++ delta /\ forallb (quarantines fullUrl) delta = true /\
      count is_sadd delta = nq /\ count is_send delta = ns) /\
  strings w' = strings w /\
  (forall key, key <> "invalid_encounters" -> sets w' !! key = sets w !! key) /\
  (smembers "invalid_encounters" w' = smembers "invalid_encounters" w \/
   nq = 1%nat /\
   smembers "invalid_encounters" w' = {[fullUrl]} ∪ smembers "invalid_encounters" w) /\
  (queue w' = queue w \/ ns = 1%nat /\ exists m, queue w' = queue w ++ [m]).

(** *** Further vocabulary *)

(** The bytes an attempt brings back when it meets [reply]: [fetchData]
    succeeds on status 200 with a readable body and on nothing else. *)
Definition attempt_ok (reply : HttpReply) : option string :=
  match reply with
  | Response status (Ok b) => if bool_decide (status = 200) then Some b else None
  | _ => None
  end.

(** The time spent in [time.Sleep] over a trace, in nanoseconds; a sleep of
    a negative duration returns at once. *)
Definition slept (t : list Event) : Z :=
  foldr (fun e acc => match e with
                      | EvSleep d => Z.max 0 d + acc
                      | _ => acc
                      end) 0 t.

Fixpoint has_slash (s : string) : bool :=
  match s with
  | EmptyString => false
  | String c s' => bool_decide (c = "/"%char) || has_slash s'
  end.

(** Between [w] and [w'] at most [n] requests were sent to the server. *)
Definition fetch_budget (n : nat) (w w' : World) : Prop :=
  exists delta, trace w' = trace w ++ delta /\ (count is_fetch delta <= n)%nat.

(** Store commands on string keys, the cursor among them. *)
Definition touches_strings (e : Event) : bool :=
  match e with
  | EvRedisGet _ | EvRedisSet _ _ => true
  | _ => false
  end.

(** ** Properties *)

Section Fetching.

Variable env : Env.

Lemma wrap64_small z : - 2 ^ 63 <= z < 2 ^ 63 -> wrap64 z = z.
Proof. intros Hz. unfold wrap64. rewrite Z.mod_small; lia. Qed.

(** Up to 33 the shift and the product stay inside [int64]. *)
Lemma waitTime_exact i : 0 <= i <= 33 -> waitTime i = 2 ^ i * Second.
Proof.
  intros Hi. unfold waitTime, Second.
  rewrite Z.shiftl_1_l.
  assert (Hlo : 1 <= 2 ^ i) by (apply (Z.pow_le_mono_r 2 0 i); lia).
  assert (Hhi : 2 ^ i <= 2 ^ 33) by (apply Z.pow_le_mono_r; lia).
  rewrite (wrap64_small (2 ^ i)) by lia.
  rewrite wrap64_small by lia. lia.
Qed.

Lemma fetchData_emits url w :
  exists r, fetchData env url w = Done r (emit (EvFetch url) w).
Proof.
  unfold fetchData.
  destruct (http_Do env (tick w) url) as [e|e|status [b|e]]; try case_bool_decide; eauto.
Qed.

(** One more failed attempt adds a sleep and an attempt to the schedule. *)
Lemma schedule_step wait url k :
  schedule wait url (S (S k)) =
  schedule wait url (S k) ++ [EvSleep (wait (Z.of_nat (S k))); EvFetch url].
Proof.
  unfold schedule. rewrite seq_S, flat_map_app. reflexivity.
Qed.

Lemma count_fetch_schedule wait url k : count is_fetch (schedule wait url k) = k.
Proof.
  destruct k as [|k]; [done|].
  induction k as [|k IH]; [done|].
  rewrite schedule_step. unfold count in *.
  rewrite List.filter_app, length_app, IH. simpl. lia.
Qed.

(** The loop seen from its [j]-th turn, after [j] failed attempts. *)
Lemma retry_loop_spec url n j w w0 :
  trace w = trace w0 ++ schedule waitTime url j ->
  strings w = strings w0 -> sets w = sets w0 -> queue w = queue w0 ->
  exists k r w',
    retry_loop env url n (Z.of_nat j) w = Done r w' /\
    ((j <= k <= j + n)%nat /\ (0 < n -> j < k)%nat) /\
    trace w' = trace w0 ++ schedule waitTime url k /\
    strings w' = strings w0 /\ sets w' = sets w0 /\ queue w' = queue w0 /\
    match r with
    | Ok data => exists w_last, fetchData env url w_last = Done (Ok data) w'
    | Err e => e = ErrNew "All attempts were failed" /\ k = (j + n)%nat
    end.
Proof.
  revert j w. induction n as [|n IH]; intros j w Ht Hs Hm Hq.
  - exists j, (Err (ErrNew "All attempts were failed")), w. simpl.
    repeat split; try done; try lia.
  - cbn [retry_loop]. unfold bind at 1.
    set (w1 := if bool_decide (0 < Z.of_nat j) then emit (EvSleep (waitTime (Z.of_nat j))) w else w).
    assert (Hpre : (if bool_decide (0 < Z.of_nat j) then time_Sleep (waitTime (Z.of_nat j)) else ret tt) w
                   = Done tt w1).
    { unfold w1. case_bool_decide; reflexivity. }
    rewrite Hpre. unfold bind at 1.
    destruct (fetchData_emits url w1) as [r Hr]. rewrite Hr.
    assert (Htr : trace (emit (EvFetch url) w1) = trace w0 ++ schedule waitTime url (S j)).
    { unfold w1. destruct j as [|j].
      - rewrite bool_decide_false by lia. simpl. rewrite Ht. simpl.
        by rewrite app_nil_r.
      - rewrite bool_decide_true by lia. rewrite schedule_step. simpl.
        rewrite Ht. rewrite <- !app_assoc. done. }
    assert (Hst : strings (emit (EvFetch url) w1) = strings w0 /\
                  sets (emit (EvFetch url) w1) = sets w0 /\
                  queue (emit (EvFetch url) w1) = queue w0).
    { unfold w1. case_bool_decide; simpl; auto. }
    destruct Hst as (Hs1 & Hm1 & Hq1).
    destruct r as [data|e].
    + exists (S j), (Ok data), (emit (EvFetch url) w1).
      repeat split; try done; try lia. by exists w1.
    + replace (Z.of_nat j + 1) with (Z.of_nat (S j)) by lia.
      destruct (IH (S j) _ Htr Hs1 Hm1 Hq1) as (k & r & w' & E & [Hk _] & H).
      exists k, r, w'. split; [exact E|]. split; [lia|].
      destruct H as (? & ? & ? & ? & H). repeat split; try done.
      destruct r; [done|]. destruct H; split; [done|lia].
Qed.

(** [fetchDataWithRetry] always returns; it makes [k] attempts, at most
    [maxRetries] and at least one when the budget is positive, sleeps
    [waitTime i] after failed attempt [i], and touches neither the store nor
    the queue. *)
Lemma fetchDataWithRetry_spec url maxRetries w :
  exists k r w',
    fetchDataWithRetry env url maxRetries w = Done r w' /\
    ((k <= Z.to_nat maxRetries)%nat /\ (0 < maxRetries -> (0 < k)%nat)) /\
    trace w' = trace w ++ schedule waitTime url k /\
    strings w' = strings w /\ sets w' = sets w /\ queue w' = queue w /\
    match r with
    | Ok data => exists w_last, fetchData env url w_last = Done (Ok data) w'
    | Err e => e = ErrNew "All attempts were failed" /\ k = Z.to_nat maxRetries
    end.
Proof.
  unfold fetchDataWithRetry.
  destruct (retry_loop_spec url (Z.to_nat maxRetries) 0 w w)
    as (k & r & w' & E & [Hk Hpos] & H); try done.
  { simpl. by rewrite app_nil_r. }
  exists k, r, w'. split; [exact E|]. split; [|exact H].
  split; [lia|]. intros Hmax. apply Hpos. lia.
Qed.

End Fetching.

Section RetryClaims.

Variable env : Env.


(** C4, as the code has it: when every attempt of the retrying fetch fails,
    the error it returns is the fixed error "All attempts were failed", which
    wraps nothing: the causes of the failed attempts are not in it. *)
Theorem fetchDataWithRetry_terminal_error url maxAttempts w e w' :
  fetchDataWithRetry env url maxAttempts w = Done (Err e) w' ->
  e = ErrNew "All attempts were failed" /\
  (forall cause, carries e cause -> cause = e).
Proof.
  intros Hrun.
  destruct (fetchDataWithRetry_spec env url maxAttempts w) as (k & r & w1 & E & _ & _ & _ & _ & _ & H).
  rewrite Hrun in E. injection E as <- <-. destruct H as [-> _].
  split; [done|]. intros cause [Hc|[]]. done.
Qed.

End RetryClaims.

(** With a budget of 3: attempt 2 comes 2s after the first failure, attempt 3
    comes 4s after the second. *)
Example backoff_schedule_three url :
  backoff_schedule url 3 =
  [EvFetch url; EvSleep 2000000000; EvFetch url; EvSleep 4000000000; EvFetch url].
Proof. reflexivity. Qed.

(** C4 at work: three answers with status 500. *)
Lemma fetchDataWithRetry_terminal_error_witness :
  fetchDataWithRetry Scenario.upstream_down (encounterURL "2025-01-01") 3 Scenario.w0
  = Done (Err (ErrNew "All attempts were failed"))
         (final (fetchDataWithRetry Scenario.upstream_down (encounterURL "2025-01-01") 3
                   Scenario.w0)) /\
  ErrNew "All attempts were failed" = ErrNew "All attempts were failed" /\
  (forall cause, carries (ErrNew "All attempts were failed") cause ->
                 cause = ErrNew "All attempts were failed").
Proof.
  split; [vm_compute; reflexivity|].
  apply (fetchDataWithRetry_terminal_error Scenario.upstream_down
           (encounterURL "2025-01-01") 3 Scenario.w0 _
           (final (fetchDataWithRetry Scenario.upstream_down (encounterURL "2025-01-01") 3
                     Scenario.w0))).
  vm_compute; reflexivity.
Defined.

(** C4 as stated fails: the third attempt fails with "API returned status
    500", the retrying fetch ends in the world that attempt left and returns
    an error that does not carry that cause. *)
Lemma fetchDataWithRetry_drops_cause :
  exists w_last w_end,
    fetchData Scenario.upstream_down (encounterURL "2025-01-01") w_last
    = Done (Err (ErrNew "API returned status 500")) w_end /\
    fetchDataWithRetry Scenario.upstream_down (encounterURL "2025-01-01") 3 Scenario.w0
    = Done (Err (ErrNew "All attempts were failed")) w_end /\
    ~ carries (ErrNew "All attempts were failed") (ErrNew "API returned status 500").
Proof.
  exists {| trace := [EvFetch (encounterURL "2025-01-01"); EvSleep 2000000000;
                      EvFetch (encounterURL "2025-01-01"); EvSleep 4000000000];
            strings := ∅; sets := ∅; queue := [] |}.
  eexists. split; [vm_compute; reflexivity|]. split; [vm_compute; reflexivity|].
  intros [H|[]]. discriminate H.
Qed.


Section Enrichment.

Variable env : Env.

Lemma schedule_forallb (p : Event -> bool) wait url k :
  p (EvFetch url) = true -> (forall d, p (EvSleep d) = true) ->
  forallb p (schedule wait url k) = true.
Proof.
  intros Hf Hs. destruct k as [|k]; [done|].
  induction k as [|k IH]; [by simpl; rewrite Hf|].
  rewrite schedule_step, forallb_app, IH. simpl. by rewrite Hs, Hf.
Qed.

Lemma schedule_count_0 (p : Event -> bool) wait url k :
  p (EvFetch url) = false -> (forall d, p (EvSleep d) = false) ->
  count p (schedule wait url k) = 0%nat.
Proof.
  intros Hf Hs. destruct k as [|k]; [done|].
  induction k as [|k IH]; [by unfold count; simpl; rewrite Hf|].
  rewrite schedule_step. unfold count in *.
  rewrite List.filter_app, length_app, IH. simpl. by rewrite Hs, Hf.
Qed.

Lemma count_app p t1 t2 : count p (t1 ++ t2) = (count p t1 + count p t2)%nat.
Proof. unfold count. by rewrite List.filter_app, length_app. Qed.

Lemma frame_refl fullUrl w : frame fullUrl 0 0 w w.
Proof.
  repeat split; auto. exists []. by rewrite app_nil_r.
Qed.

Lemma frame_trans fullUrl a b c d w w1 w2 :
  frame fullUrl a b w w1 -> frame fullUrl c d w1 w2 ->
  (a + c <= 1)%nat -> (b + d <= 1)%nat ->
  frame fullUrl (a + c) (b + d) w w2.
Proof.
  intros ((d1 & Ht1 & Hf1 & Hq1 & Hs1) & Hstr1 & Hset1 & Hinv1 & Hqu1)
         ((d2 & Ht2 & Hf2 & Hq2 & Hs2) & Hstr2 & Hset2 & Hinv2 & Hqu2) Hac Hbd.
  split; [|split; [|split; [|split]]].
  - exists (d1 ++ d2). rewrite Ht2, Ht1, <- app_assoc, forallb_app, Hf1, Hf2, !count_app.
    repeat split; congruence.
  - congruence.
  - intros key Hkey. rewrite Hset2, Hset1; done.
  - destruct Hinv1 as [E1|[Ha E1]], Hinv2 as [E2|[Hc E2]].
    + left. congruence.
    + right. split; [lia|]. congruence.
    + right. split; [lia|]. congruence.
    + lia.
  - destruct Hqu1 as [E1|[Hb [m1 E1]]], Hqu2 as [E2|[Hd [m2 E2]]].
    + left. congruence.
    + right. split; [lia|]. exists m2. congruence.
    + right. split; [lia|]. exists m1. congruence.
    + lia.
Qed.

Lemma frame_fetch fullUrl url maxRetries w r w1 :
  fetchDataWithRetry env url maxRetries w = Done r w1 -> frame fullUrl 0 0 w w1.
Proof.
  intros Hrun.
  destruct (fetchDataWithRetry_spec env url maxRetries w)
    as (k & r' & w' & E & _ & Ht & Hs & Hm & Hq & _).
  rewrite Hrun in E. injection E as <- <-.
  split; [|split; [|split; [|split]]].
  - exists (schedule waitTime url k). split; [done|].
    split; [by apply schedule_forallb|]. split; by apply schedule_count_0.
  - done.
  - intros. by rewrite Hm.
  - left. unfold smembers. by rewrite Hm.
  - by left.
Qed.

(** A quarantine command: issued once; applied unless the store fails. *)
Lemma quarantine_spec fullUrl w :
  exists w',
    (redis_SAdd env "invalid_encounters" fullUrl ;; ret tt) w = Done tt w' /\
    trace w' = trace w ++ [EvRedisSAdd "invalid_encounters" fullUrl] /\
    queue w' = queue w /\
    frame fullUrl 1 0 w w' /\
    (redis_fault env (tick w) = None -> fullUrl ∈ smembers "invalid_encounters" w').
Proof.
  unfold bind, redis_SAdd, ret.
  destruct (redis_fault env (tick w)) as [e|] eqn:Hfault; eexists; (split; [reflexivity|]).
  - simpl. repeat split; auto; [|done].
    exists [EvRedisSAdd "invalid_encounters" fullUrl]. simpl.
    rewrite !bool_decide_true by done. done.
  - simpl. split; [done|]. split; [done|]. split.
    + split; [|split; [|split; [|split]]]; simpl; auto.
      * exists [EvRedisSAdd "invalid_encounters" fullUrl]. simpl.
        rewrite !bool_decide_true by done. done.
      * intros key Hkey. by rewrite lookup_insert_ne.
      * right. split; [done|]. unfold smembers. simpl. by rewrite lookup_insert_eq.
    + intros _. unfold smembers. simpl. rewrite lookup_insert_eq. simpl. set_solver.
Qed.

(** [sendToSQS] returns after at most one send, or ends the process before
    any call when the queue URL is empty. *)
Lemma sendToSQS_frame fullUrl message clientID w :
  match sendToSQS env message clientID w with
  | Done _ w' => exists ns, (ns <= 1)%nat /\ frame fullUrl 0 ns w w'
  | Fatal w' => w' = w
  | Panic _ => False
  end.
Proof.
  unfold sendToSQS, bind, ret, log_Fatal.
  destruct (aws_LoadDefaultConfig env (tick w)); [exists 0%nat; split; [lia|apply frame_refl]|].
  case_bool_decide; [done|].
  destruct (json_Marshal env message) as [body|e];
    [|exists 0%nat; split; [lia|apply frame_refl]].
  unfold sqs_SendMessage.
  destruct (sqs_fault env (tick w)); simpl.
  - exists 1%nat. split; [lia|]. repeat split; simpl; auto. eexists. split; [reflexivity|done].
  - exists 1%nat. split; [lia|]. split; [|split; [|split; [|split]]]; simpl; auto.
    + eexists. split; [reflexivity|done].
    + right. split; [done|]. eexists. reflexivity.
Qed.

End Enrichment.

Section Candidates.

Variable env : Env.

Lemma missing_field_false enc fullUrl :
  missing_field enc fullUrl = false ->
  enc_Status enc <> "" /\ Code (enc_Class enc) <> "" /\ enc_Participant enc <> None /\
  Reference (enc_Subject enc) <> "" /\ fullUrl <> "".
Proof.
  unfold missing_field. intros H.
  repeat (apply orb_false_elim in H; destruct H as [H ?]).
  repeat match goal with
         | H : bool_decide _ = false |- _ => apply bool_decide_eq_false in H
         end.
  repeat split; try done. by destruct (enc_Participant enc).
Qed.

(** What [processEncounter] does with a valid candidate, once the two
    retrying fetches are named. *)
Lemma processEncounter_valid enc fullUrl clientID practitionerRef w r1 w1 r2 w2 :
  valid_candidate enc fullUrl practitionerRef ->
  fetchDataWithRetry env (baseR4 +:+ practitionerRef) 3 w = Done r1 w1 ->
  fetchDataWithRetry env (baseR4 +:+ Reference (enc_Subject enc)) 3 w1 = Done r2 w2 ->
  processEncounter env enc fullUrl clientID w =
  match resolved (json_Unmarshal_Practitioner env) pr_Name r1 with
  | None => (redis_SAdd env "invalid_encounters" fullUrl ;; ret tt) w1
  | Some practitioner =>
      match resolved (json_Unmarshal_Patient env) pt_Name r2 with
      | None => (redis_SAdd env "invalid_encounters" fullUrl ;; ret tt) w2
      | Some patient =>
          (do err <- sendToSQS env (enriched enc fullUrl practitioner patient) clientID ;
           match err with
           | Some _ => redis_SAdd env "invalid_encounters" fullUrl ;; ret tt
           | None => ret tt
           end) w2
      end
  end.
Proof.
  intros (Hmf & (p0 & ps & Hpart & <-) & Hne) H1 H2.
  destruct (missing_field_false _ _ Hmf) as (_ & _ & _ & Hsubj & _).
  unfold processEncounter. rewrite Hmf, Hpart.
  rewrite (bool_decide_false _ Hne), (bool_decide_false _ Hsubj).
  unfold bind at 1. rewrite H1.
  destruct r1 as [data1|e1]; [|reflexivity]. cbn [resolved].
  destruct (json_Unmarshal_Practitioner env data1) as [practitioner|e1]; [|reflexivity].
  destruct (has_given_name (pr_Name practitioner)); [|reflexivity]. cbn [negb].
  unfold bind at 1. rewrite H2.
  destruct r2 as [data2|e2]; [|reflexivity]. cbn [resolved].
  destruct (json_Unmarshal_Patient env data2) as [patient|e2]; [|reflexivity].
  destruct (has_given_name (pt_Name patient)); [|reflexivity]. cbn [negb].
  unfold enriched. rewrite Hpart. reflexivity.
Qed.

(** The effects of one call of [processEncounter], whatever its outcome. *)
Lemma processEncounter_frame_counts enc fullUrl clientID w :
  exists nq ns, (nq <= 1)%nat /\ (ns <= 1)%nat /\
    frame fullUrl nq ns w (final (processEncounter env enc fullUrl clientID w)).
Proof.
  assert (Hq : forall w0 w1, frame fullUrl 0 0 w0 w1 ->
    exists nq ns, (nq <= 1)%nat /\ (ns <= 1)%nat /\
      frame fullUrl nq ns w0
        (final ((redis_SAdd env "invalid_encounters" fullUrl ;; ret tt) w1))).
  { intros w0 w1 H01.
    destruct (quarantine_spec env fullUrl w1) as (w' & E & _ & _ & Hf & _).
    rewrite E. exists 1%nat, 0%nat. split; [lia|]. split; [lia|].
    apply (frame_trans fullUrl 0 0 1 0 w0 w1 w'); auto. }
  unfold processEncounter.
  destruct (missing_field enc fullUrl); [apply Hq, frame_refl|].
  destruct (enc_Participant enc) as [[|p0 ps]|];
    try (exists 0%nat, 0%nat; split; [lia|]; split; [lia|]; apply frame_refl).
  repeat (case_bool_decide;
    [exists 0%nat, 0%nat; split; [lia|]; split; [lia|]; apply frame_refl|]).
  unfold bind at 1.
  destruct (fetchDataWithRetry_spec env (baseR4 +:+ Reference (Individual p0)) 3 w)
    as (k1 & r1 & w1 & E1 & _).
  rewrite E1. pose proof (frame_fetch env fullUrl _ _ _ _ _ E1) as F1.
  destruct r1 as [data1|e1]; [|by apply Hq].
  destruct (json_Unmarshal_Practitioner env data1) as [practitioner|e1]; [|by apply Hq].
  destruct (has_given_name (pr_Name practitioner)); [|by apply Hq]. cbn [negb].
  unfold bind at 1.
  destruct (fetchDataWithRetry_spec env (baseR4 +:+ Reference (enc_Subject enc)) 3 w1)
    as (k2 & r2 & w2 & E2 & _).
  rewrite E2. pose proof (frame_fetch env fullUrl _ _ _ _ _ E2) as F2.
  pose proof (frame_trans fullUrl 0 0 0 0 w w1 w2 F1 F2) as F12.
  destruct r2 as [data2|e2]; [|apply Hq, F12; lia].
  destruct (json_Unmarshal_Patient env data2) as [patient|e2]; [|apply Hq, F12; lia].
  destruct (has_given_name (pt_Name patient)); [|apply Hq, F12; lia]. cbn [negb].
  unfold bind at 1.
  match goal with
  | |- context [sendToSQS env ?m clientID w2] =>
      pose proof (sendToSQS_frame env fullUrl m clientID w2) as Hsend;
      destruct (sendToSQS env m clientID w2) as [err w3|w3|w3]
  end.
  - destruct Hsend as (ns & Hns & F3).
    assert (F : frame fullUrl 0 ns w w3).
    { apply (frame_trans fullUrl 0 0 0 ns w w2 w3); auto; lia. }
    destruct err as [e|].
    + destruct (quarantine_spec env fullUrl w3) as (w' & E & _ & _ & Hf & _).
      rewrite E. exists 1%nat, ns. split; [lia|]. split; [lia|].
      replace ns with (ns + 0)%nat by lia.
      apply (frame_trans fullUrl 0 ns 1 0 w w3 w'); auto; lia.
    + exists 0%nat, ns. auto.
  - subst w3. exists 0%nat, 0%nat. split; [lia|]. split; [lia|]. apply F12; lia.
  - done.
Qed.

End Candidates.

Section CandidateClaims.

Variable env : Env.

(** Validation failure: the candidate is quarantined with a single store
    command and nothing else happens, in particular no fetch.  This is the
    part of C1 the code keeps: it covers every missing field that the first
    test of [processEncounter] sees. *)
Lemma processEncounter_missing_field enc fullUrl clientID w :
  missing_field enc fullUrl = true ->
  exists w',
    processEncounter env enc fullUrl clientID w = Done tt w' /\
    trace w' = trace w ++ [EvRedisSAdd "invalid_encounters" fullUrl] /\
    count is_fetch (trace w') = count is_fetch (trace w) /\
    queue w' = queue w /\
    (redis_fault env (tick w) = None -> fullUrl ∈ smembers "invalid_encounters" w').
Proof.
  intros Hmf. unfold processEncounter. rewrite Hmf.
  destruct (quarantine_spec env fullUrl w) as (w' & E & Ht & Hq & _ & Hin).
  exists w'. repeat split; try done.
  rewrite Ht, count_app. unfold count at 2. simpl. lia.
Qed.

(** A participant array that is present and empty passes the validation and
    makes [enc.Participant[0]] panic. *)
Lemma processEncounter_no_participant enc fullUrl clientID w :
  missing_field enc fullUrl = false -> enc_Participant enc = Some [] ->
  processEncounter env enc fullUrl clientID w = Panic w.
Proof. intros Hmf Hp. unfold processEncounter. by rewrite Hmf, Hp. Qed.

(** An entity none of whose name entries has a given name fails the test
    the code applies, which looks at the first name entry only. *)
Lemma no_given_name_fails names :
  some_name_has_given names = false -> has_given_name names = false.
Proof.
  destruct names as [|n0 names]; [done|]. simpl.
  intros H. by apply orb_false_elim in H as [H _].
Qed.

(** C7: a valid candidate whose practitioner reference, or else whose patient
    reference, does not resolve (the retrying fetch fails, the response does
    not decode, or the first name entry of the entity has no given name) is
    quarantined: the call returns after issuing SADD invalid_encounters with
    the candidate's URL right after the last fetch, the URL is in the set
    when the store applies the command, and no message is sent. *)
Theorem processEncounter_unresolved enc fullUrl clientID practitionerRef w r1 w1 r2 w2 :
  valid_candidate enc fullUrl practitionerRef ->
  fetchDataWithRetry env (baseR4 +:+ practitionerRef) 3 w = Done r1 w1 ->
  fetchDataWithRetry env (baseR4 +:+ Reference (enc_Subject enc)) 3 w1 = Done r2 w2 ->
  resolved (json_Unmarshal_Practitioner env) pr_Name r1 = None \/
  resolved (json_Unmarshal_Patient env) pt_Name r2 = None ->
  let w_f := match resolved (json_Unmarshal_Practitioner env) pr_Name r1 with
             | None => w1
             | Some _ => w2
             end in
  exists w',
    processEncounter env enc fullUrl clientID w = Done tt w' /\
    trace w' = trace w_f ++ [EvRedisSAdd "invalid_encounters" fullUrl] /\
    (redis_fault env (tick w_f) = None -> fullUrl ∈ smembers "invalid_encounters" w') /\
    queue w' = queue w /\
    count is_send (trace w') = count is_send (trace w).
Proof.
  intros Hvalid H1 H2 Hfail w_f.
  rewrite (processEncounter_valid env enc fullUrl clientID _ w r1 w1 r2 w2 Hvalid H1 H2).
  destruct (frame_fetch env fullUrl _ _ _ _ _ H1) as ((d1 & Ht1 & _ & _ & Hs1) & _ & _ & _ & Hq1).
  destruct (frame_fetch env fullUrl _ _ _ _ _ H2) as ((d2 & Ht2 & _ & _ & Hs2) & _ & _ & _ & Hq2).
  assert (Hq1' : queue w1 = queue w) by (destruct Hq1 as [?|[? _]]; done).
  assert (Hq2' : queue w2 = queue w1) by (destruct Hq2 as [?|[? _]]; done).
  assert (Hwf : queue w_f = queue w /\ count is_send (trace w_f) = count is_send (trace w)).
  { unfold w_f. destruct (resolved (json_Unmarshal_Practitioner env) pr_Name r1).
    - split; [congruence|]. rewrite Ht2, Ht1, !count_app. lia.
    - split; [congruence|]. rewrite Ht1, !count_app. lia. }
  destruct Hwf as [Hqf Hcf].
  assert (Hgoal : exists w',
    (redis_SAdd env "invalid_encounters" fullUrl ;; ret tt) w_f = Done tt w' /\
    trace w' = trace w_f ++ [EvRedisSAdd "invalid_encounters" fullUrl] /\
    (redis_fault env (tick w_f) = None -> fullUrl ∈ smembers "invalid_encounters" w') /\
    queue w' = queue w /\ count is_send (trace w') = count is_send (trace w)).
  { destruct (quarantine_spec env fullUrl w_f) as (w' & E & Ht & Hq & _ & Hin).
    exists w'. repeat split; try done; [congruence|].
    rewrite Ht, count_app, Hcf. unfold count at 2. simpl. lia. }
  unfold w_f in *.
  destruct (resolved (json_Unmarshal_Practitioner env) pr_Name r1); [|exact Hgoal].
  destruct Hfail as [Hfail|Hfail]; [done|]. rewrite Hfail. exact Hgoal.
Qed.

End CandidateClaims.

Section BatchClaims.

Variable env : Env.

(** [fanout] is the run of the goroutines of the batch one after the other,
    in the order in which the loop starts them. *)
Lemma fanout_imap i entries :
  fanout env i entries =
  foldr (fun call rest => call ;; rest) (ret tt)
    (imap (fun j => entry_call env (i + j)) entries).
Proof.
  revert i. induction entries as [|e l IH]; intros i; [done|].
  simpl. rewrite Nat.add_0_r, IH.
  rewrite (imap_ext ((fun j => entry_call env (i + j)) ∘ S)
             (fun j => entry_call env (S i + j)) l); [done|].
  intros j x _. simpl. f_equal. lia.
Qed.

Lemma fanout_goroutines entries :
  fanout env 0 entries =
  foldr (fun call rest => call ;; rest) (ret tt) (goroutines env entries).
Proof. apply fanout_imap. Qed.

Lemma goroutines_lookup entries i entry :
  entries !! i = Some entry -> goroutines env entries !! i = Some (entry_call env i entry).
Proof. intros Hi. unfold goroutines. by rewrite list_lookup_imap, Hi. Qed.

Lemma clientIDFor_parity i : clientIDFor i = if Nat.even i then "001" else "002".
Proof.
  unfold clientIDFor.
  assert (Hi : Nat.even i = Nat.even (i mod 2)).
  { rewrite (Nat.div_mod_eq i 2) at 1. by rewrite Nat.add_comm, Nat.even_add_mul_2. }
  pose proof (Nat.mod_upper_bound i 2) as Hlt.
  rewrite Hi. destruct (i mod 2)%nat as [|[|n]]; [done|done|lia].
Qed.

(** C6, as the code has it: take the entry at position [i] of a day's batch,
    a valid candidate both of whose references resolve: each is fetched
    within its three attempts, decodes, and the first name entry of the
    entity has a given name.  When the publisher is ready (the AWS
    configuration loads, SQS_QUEUE_URL is not empty, the message serialises)
    and the queue accepts the send, the goroutine [processDate] starts for
    that position, run from any world, returns after exactly one send more
    than before, its last call; the queue holds one message more, the
    enriched message of the candidate, under the key "001" when [i] is even
    and "002" when it is odd; and the candidate is not quarantined.  Nothing
    is assumed of the other entries of the batch. *)
Theorem entry_call_publishes_one entries i entry practitionerRef w r1 w1 r2 w2
    practitioner patient body :
  entries !! i = Some entry ->
  valid_candidate (Resource entry) (FullUrl entry) practitionerRef ->
  fetchDataWithRetry env (baseR4 +:+ practitionerRef) 3 w = Done r1 w1 ->
  resolved (json_Unmarshal_Practitioner env) pr_Name r1 = Some practitioner ->
  fetchDataWithRetry env (baseR4 +:+ Reference (enc_Subject (Resource entry))) 3 w1
  = Done r2 w2 ->
  resolved (json_Unmarshal_Patient env) pt_Name r2 = Some patient ->
  aws_LoadDefaultConfig env (tick w2) = None ->
  os_Getenv env "SQS_QUEUE_URL" <> "" ->
  json_Marshal env (enriched (Resource entry) (FullUrl entry) practitioner patient)
  = Ok body ->
  sqs_fault env (tick w2) = None ->
  let key := if Nat.even i then "001" else "002" in
  goroutines env entries !! i = Some (entry_call env i entry) /\
  exists w',
    entry_call env i entry w = Done tt w' /\
    trace w' = trace w2 ++ [EvSqsSend (os_Getenv env "SQS_QUEUE_URL") body key] /\
    count is_send (trace w') = S (count is_send (trace w)) /\
    count is_sadd (trace w') = count is_sadd (trace w) /\
    queue w' = queue w ++ [{| QueueUrl := os_Getenv env "SQS_QUEUE_URL";
                              MessageBody := body; MessageGroupId := key |}] /\
    sets w' = sets w.
Proof.
  intros Hi Hvalid H1 Hr1 H2 Hr2 Hcfg Hurl Hbody Hsqs key.
  split; [by apply goroutines_lookup|].
  unfold entry_call.
  rewrite (processEncounter_valid env _ _ _ _ w r1 w1 r2 w2 Hvalid H1 H2), Hr1, Hr2.
  destruct (fetchDataWithRetry_spec env (baseR4 +:+ practitionerRef) 3 w)
    as (k1 & r1' & w1' & E1 & _ & Ht1 & _ & Hm1 & Hq1 & _).
  rewrite H1 in E1. injection E1 as <- <-.
  destruct (fetchDataWithRetry_spec env
              (baseR4 +:+ Reference (enc_Subject (Resource entry))) 3 w1)
    as (k2 & r2' & w2' & E2 & _ & Ht2 & _ & Hm2 & Hq2 & _).
  rewrite H2 in E2. injection E2 as <- <-.
  unfold bind at 1, sendToSQS, bind at 1. rewrite Hcfg.
  unfold bind at 1. rewrite (bool_decide_false _ Hurl). unfold ret at 1.
  rewrite Hbody. unfold bind at 1, sqs_SendMessage. rewrite Hsqs.
  rewrite clientIDFor_parity. fold key.
  eexists. split; [reflexivity|]. simpl.
  repeat split; try congruence.
  - rewrite Ht2, Ht1, !count_app.
    rewrite !schedule_count_0 by done. unfold count. simpl. lia.
  - rewrite Ht2, Ht1, !count_app.
    rewrite !schedule_count_0 by done. unfold count. simpl. lia.
Qed.

(** C10, as the code has it: let SQS_QUEUE_URL be empty and take a valid
    candidate both of whose references resolve (fetched within the three
    attempts, decoded, first name entry with a given name), so that its call
    enters [sendToSQS].  When the AWS configuration loads, the call ends the
    process in [log.Fatal] in the world its last fetch left: it has sent
    nothing and issued no SADD, so the record is not quarantined.  When the
    AWS configuration does not load, [sendToSQS] returns that error before
    it looks at the queue URL: the call quarantines the candidate and
    returns.  Nothing before the loop looks at SQS_QUEUE_URL: the start-up
    of [main] is the same for every value of it. *)
Theorem empty_queue_url_fatal_at_publish enc fullUrl clientID practitionerRef w r1 w1 r2 w2
    practitioner patient :
  os_Getenv env "SQS_QUEUE_URL" = "" ->
  valid_candidate enc fullUrl practitionerRef ->
  fetchDataWithRetry env (baseR4 +:+ practitionerRef) 3 w = Done r1 w1 ->
  resolved (json_Unmarshal_Practitioner env) pr_Name r1 = Some practitioner ->
  fetchDataWithRetry env (baseR4 +:+ Reference (enc_Subject enc)) 3 w1 = Done r2 w2 ->
  resolved (json_Unmarshal_Patient env) pt_Name r2 = Some patient ->
  match aws_LoadDefaultConfig env (tick w2) with
  | None =>
      processEncounter env enc fullUrl clientID w = Fatal w2 /\
      sets w2 = sets w /\ queue w2 = queue w /\
      count is_sadd (trace w2) = count is_sadd (trace w) /\
      count is_send (trace w2) = count is_send (trace w)
  | Some _ =>
      exists w',
        processEncounter env enc fullUrl clientID w = Done tt w' /\
        trace w' = trace w2 ++ [EvRedisSAdd "invalid_encounters" fullUrl] /\
        queue w' = queue w /\
        (redis_fault env (tick w2) = None -> fullUrl ∈ smembers "invalid_encounters" w')
  end /\
  (forall queueURL w_start, resume (with_queue_url queueURL env) w_start = resume env w_start).
Proof.
  intros Hurl Hvalid H1 Hr1 H2 Hr2.
  split; [|intros queueURL w_start; reflexivity].
  rewrite (processEncounter_valid env _ _ clientID _ w r1 w1 r2 w2 Hvalid H1 H2), Hr1, Hr2.
  destruct (fetchDataWithRetry_spec env (baseR4 +:+ practitionerRef) 3 w)
    as (k1 & r1' & w1' & E1 & _ & Ht1 & _ & Hm1 & Hq1 & _).
  rewrite H1 in E1. injection E1 as <- <-.
  destruct (fetchDataWithRetry_spec env (baseR4 +:+ Reference (enc_Subject enc)) 3 w1)
    as (k2 & r2' & w2' & E2 & _ & Ht2 & _ & Hm2 & Hq2 & _).
  rewrite H2 in E2. injection E2 as <- <-.
  destruct (aws_LoadDefaultConfig env (tick w2)) as [cause|] eqn:Hcfg.
  - unfold bind at 1, sendToSQS, bind at 1. rewrite Hcfg. unfold ret at 1.
    destruct (quarantine_spec env fullUrl w2) as (w' & E & Ht & Hq & _ & Hin).
    exists w'. split; [exact E|]. split; [exact Ht|]. split; [congruence|exact Hin].
  - unfold bind at 1, sendToSQS, bind at 1. rewrite Hcfg.
    unfold bind at 1. rewrite (bool_decide_true _ Hurl).
    split; [reflexivity|]. split; [congruence|]. split; [congruence|].
    rewrite Ht2, Ht1, !count_app, !schedule_count_0 by done. lia.
Qed.

(** C9: whatever the candidate and however the call ends, [processEncounter]
    leaves the string keys of the store (the cursor among them) and every
    set but invalid_encounters (unprocessed_dates among them) as they were;
    invalid_encounters gains nothing or the candidate's URL; the queue gains
    nothing or one message; and the calls it issues are fetches, sleeps, at
    most one SADD invalid_encounters of the candidate's URL and at most one
    send. *)
Theorem processEncounter_frame enc fullUrl clientID w :
  let w' := final (processEncounter env enc fullUrl clientID w) in
  strings w' = strings w /\
  strings w' !! "last_processed_date" = strings w !! "last_processed_date" /\
  (forall key, key <> "invalid_encounters" -> sets w' !! key = sets w !! key) /\
  smembers "unprocessed_dates" w' = smembers "unprocessed_dates" w /\
  (smembers "invalid_encounters" w' = smembers "invalid_encounters" w \/
   smembers "invalid_encounters" w' = {[fullUrl]} ∪ smembers "invalid_encounters" w) /\
  (queue w' = queue w \/ exists m, queue w' = queue w ++ [m]) /\
  exists delta,
    trace w' = trace w ++ delta /\ forallb (quarantines fullUrl) delta = true /\
    (count is_sadd delta <= 1)%nat /\ (count is_send delta <= 1)%nat.
Proof.
  intros w'.
  destruct (processEncounter_frame_counts env enc fullUrl clientID w)
    as (nq & ns & Hnq & Hns & (d & Ht & Hf & Hcq & Hcs) & Hstr & Hset & Hinv & Hqu).
  fold w' in Ht, Hstr, Hset, Hinv, Hqu.
  split; [done|]. split; [by rewrite Hstr|]. split; [done|].
  split; [unfold smembers; by rewrite Hset|].
  split; [destruct Hinv as [?|[_ ?]]; auto|].
  split; [destruct Hqu as [?|[_ ?]]; auto|].
  exists d. repeat split; try done; lia.
Qed.

End BatchClaims.

Section LoopClaims.

Variable env : Env.

(** Every call only adds to the trace. *)
Lemma fanout_extends entries i w :
  exists delta, trace (final (fanout env i entries w)) = trace w ++ delta.
Proof.
  revert i w. induction entries as [|e entries IH]; intros i w.
  - exists []. simpl. by rewrite app_nil_r.
  - simpl. unfold bind.
    destruct (processEncounter_frame_counts env (Resource e) (FullUrl e) (clientIDFor i) w)
      as (nq & ns & _ & _ & (d & Ht & _) & _).
    destruct (processEncounter env (Resource e) (FullUrl e) (clientIDFor i) w)
      as [[] w1|w1|w1]; simpl in Ht; try (by exists d).
    destruct (IH (S i) w1) as [d' Hd']. exists (d ++ d').
    by rewrite Hd', Ht, app_assoc.
Qed.

(** [processDate] starts with an attempt to fetch the day's batch. *)
Lemma processDate_extends date w :
  exists delta,
    trace (final (processDate env date w)) = trace w ++ EvFetch (encounterURL date) :: delta.
Proof.
  unfold processDate. cbv zeta. unfold bind at 1.
  destruct (fetchDataWithRetry_spec env (encounterURL date) 3 w)
    as (k & r & w2 & E & [_ Hpos] & Ht & _).
  rewrite E.
  assert (Hw1 : exists d, trace w2 = trace w ++ EvFetch (encounterURL date) :: d).
  { destruct k as [|k]; [lia|]. rewrite Ht. eexists. reflexivity. }
  destruct Hw1 as [d Hw1].
  destruct r as [data|e].
  - destruct (json_Unmarshal_Bundle env data) as [bundle|e]; [|by exists d].
    case_bool_decide; [by exists d|].
    unfold bind.
    destruct (fanout_extends (Entry bundle) 0 w2) as [d' Hd'].
    destruct (fanout env 0 (Entry bundle) w2) as [[] w3|w3|w3]; simpl in Hd' |- *;
      exists (d ++ d'); by rewrite Hd', Hw1, <- app_assoc.
  - unfold bind, redis_SAdd.
    destruct (redis_fault env (tick w2)); simpl; eexists; by rewrite Hw1, <- app_assoc.
Qed.

Lemma loop_step_extends endDate currentDate w :
  currentDate <= endDate ->
  exists delta,
    trace (final (loop_step env endDate currentDate w))
    = trace w ++ EvFetch (encounterURL (time_Format env currentDate)) :: delta.
Proof.
  intros Hle. unfold loop_step. rewrite bool_decide_false by lia.
  unfold bind at 1.
  destruct (processDate_extends (time_Format env currentDate) w) as [d Hd].
  destruct (processDate env (time_Format env currentDate) w) as [[e|] w1|w1|w1];
    simpl in Hd |- *; try (by exists d).
  unfold bind, redis_Set.
  destruct (redis_fault env (tick w1)); simpl; eexists; by rewrite Hd, <- app_assoc.
Qed.

Lemma loop_step_extends_any endDate currentDate w :
  exists delta, trace (final (loop_step env endDate currentDate w)) = trace w ++ delta.
Proof.
  destruct (Z.le_gt_cases currentDate endDate) as [Hle|Hgt].
  - destruct (loop_step_extends endDate currentDate w Hle) as [d Hd]. eauto.
  - unfold loop_step. rewrite bool_decide_true by lia. exists []. simpl. by rewrite app_nil_r.
Qed.

Lemma main_loop_extends fuel endDate currentDate w :
  exists delta, trace (final (main_loop env fuel endDate currentDate w)) = trace w ++ delta.
Proof.
  revert currentDate w. induction fuel as [|fuel IH]; intros currentDate w.
  - exists []. simpl. by rewrite app_nil_r.
  - simpl. unfold bind.
    destruct (loop_step_extends_any endDate currentDate w) as [d Hd].
    destruct (loop_step env endDate currentDate w) as [[next|] w1|w1|w1];
      simpl in Hd |- *; try (by exists d).
    destruct (IH next w1) as [d' Hd']. exists (d ++ d'). by rewrite Hd', Hd, app_assoc.
Qed.

(** One turn of the loop never moves the working date back. *)
Lemma loop_step_monotone endDate currentDate w next w' :
  loop_step env endDate currentDate w = Done (Some next) w' -> currentDate <= next.
Proof.
  unfold loop_step. case_bool_decide; [done|]. unfold bind at 1.
  destruct (processDate env (time_Format env currentDate) w) as [[e|] w1|w1|w1]; try done.
  - intros [= <- _]. lia.
  - unfold bind, redis_Set, ret.
    destruct (redis_fault env (tick w1)); intros [= <- _]; unfold day; lia.
Qed.

Lemma main_loop_monotone fuel endDate currentDate w d w' :
  main_loop env fuel endDate currentDate w = Done (Some d) w' -> currentDate <= d.
Proof.
  revert currentDate w. induction fuel as [|fuel IH]; intros currentDate w.
  - intros [= <- _]. lia.
  - simpl. unfold bind.
    destruct (loop_step env endDate currentDate w) as [[next|] w1|w1|w1] eqn:Hstep; try done.
    intros Hrest. apply loop_step_monotone in Hstep. apply IH in Hrest. lia.
Qed.

End LoopClaims.

Section CursorClaims.

Variable env : Env.

(** C2, as the code has it, for a day [D] not after the end date.  When the
    retrying fetch of the batch fails, SADD unprocessed_dates [D] is issued
    (and [D] is in the set when the store applies it), no string key of the
    store is written and the loop stays on [D].  When it succeeds, the
    payload decodes as a bundle and the calls for its entries all return,
    SET last_processed_date [D] is issued (and the cursor holds [D] when the
    store applies it) and the working date becomes [D] plus one day. *)
Theorem loop_step_cursor endDate D w r w1 :
  D <= endDate ->
  fetchDataWithRetry env (encounterURL (time_Format env D)) 3 w = Done r w1 ->
  match r with
  | Err _ =>
      exists w2,
        loop_step env endDate D w = Done (Some D) w2 /\
        trace w2 = trace w1 ++ [EvRedisSAdd "unprocessed_dates" (time_Format env D)] /\
        strings w2 = strings w /\
        (redis_fault env (tick w1) = None ->
         time_Format env D ∈ smembers "unprocessed_dates" w2)
  | Ok data =>
      forall bundle w2,
        json_Unmarshal_Bundle env data = Ok bundle ->
        fanout env 0 (Entry bundle) w1 = Done tt w2 ->
        exists w3,
          loop_step env endDate D w = Done (Some (D + day)) w3 /\
          trace w3 = trace w2 ++ [EvRedisSet "last_processed_date" (time_Format env D)] /\
          (redis_fault env (tick w2) = None ->
           strings w3 !! "last_processed_date" = Some (time_Format env D))
  end.
Proof.
  intros Hle Hfetch.
  destruct (fetchDataWithRetry_spec env (encounterURL (time_Format env D)) 3 w)
    as (k & r' & w1' & E & _ & _ & Hs & _).
  rewrite Hfetch in E. injection E as <- <-.
  destruct r as [data|e].
  - intros bundle w2 Hdec Hfan.
    unfold loop_step. rewrite bool_decide_false by lia.
    unfold bind at 1, processDate. cbv zeta. unfold bind at 1. rewrite Hfetch, Hdec.
    assert (Hpd : (if bool_decide (length (Entry bundle) = 0%nat) then ret (@None error)
                   else fanout env 0 (Entry bundle);; ret None) w1 = Done None w2).
    { case_bool_decide as Hlen.
      - apply length_zero_iff_nil in Hlen. rewrite Hlen in Hfan. simpl in Hfan.
        unfold ret in *. congruence.
      - unfold bind. by rewrite Hfan. }
    rewrite Hpd. unfold bind, redis_Set, ret.
    destruct (redis_fault env (tick w2)); eexists; (split; [reflexivity|]); simpl.
    + split; [done|]. intros [=].
    + split; [done|]. intros _. by rewrite lookup_insert_eq.
  - unfold loop_step. rewrite bool_decide_false by lia.
    unfold bind at 1, processDate. cbv zeta. unfold bind at 1. rewrite Hfetch.
    unfold bind, redis_SAdd, ret.
    destruct (redis_fault env (tick w1)); eexists; (split; [reflexivity|]); simpl.
    + repeat split; try done.
    + repeat split; try done. intros _. unfold smembers. simpl.
      rewrite lookup_insert_eq. simpl. set_solver.
Qed.

(** C3, as the code has it: a run that starts with the cursor an earlier run
    persisted for day [D] resumes on [D] itself.  When [D] is not after the
    end date its first call after reading the cursor is the fetch of the
    batch of [D], the day the earlier run completed last; and its working
    date never falls below [D]. *)
Theorem resume_refetches_cursor_day w D cur endDate w1 fuel :
  strings w !! "last_processed_date" = Some (time_Format env D) ->
  time_Format env D <> "" ->
  time_Parse env (time_Format env D) = Ok D ->
  resume env w = Done (cur, endDate) w1 ->
  D <= endDate ->
  cur = D /\
  (exists rest,
      trace (final (main env (S fuel) w))
      = trace w ++ EvRedisGet "last_processed_date"
                :: EvFetch (encounterURL (time_Format env D)) :: rest) /\
  (forall n d w', main_loop env n endDate D w1 = Done (Some d) w' -> D <= d).
Proof.
  intros Hcur Hne Hparse Hres Hle.
  assert (Hw1 : cur = D /\ w1 = emit (EvRedisGet "last_processed_date") w).
  { revert Hres. unfold resume, initLogger, initCache, bind, ret, log_Fatal.
    destruct (rotatelogs_New env); [done|].
    destruct (_ || _); [done|].
    destruct (time_Parse env (os_Getenv env "START_DATE")); [|done].
    destruct (time_Parse env (os_Getenv env "END_DATE")); [|done].
    unfold redis_Get. destruct (redis_fault env (tick w)); [done|].
    rewrite Hcur. simpl. rewrite (bool_decide_false _ Hne), Hparse.
    by intros [= <- <- <-]. }
  destruct Hw1 as [-> ->]. split; [done|]. split.
  - unfold main, bind at 1. rewrite Hres. cbn [fst snd main_loop]. unfold bind.
    destruct (loop_step_extends env endDate D (emit (EvRedisGet "last_processed_date") w) Hle)
      as [d Hd].
    destruct (loop_step env endDate D (emit (EvRedisGet "last_processed_date") w))
      as [[next|] w2|w2|w2]; simpl in Hd;
      try (exists d; simpl; by rewrite Hd, <- app_assoc).
    destruct (main_loop_extends env fuel endDate next w2) as [d' Hd'].
    exists (d ++ d'). rewrite Hd', Hd. simpl. by rewrite <- !app_assoc.
  - intros n d w'. apply main_loop_monotone.
Qed.

(** C8, as the code has it, for a day [D] not after the end date.  A batch
    that is fetched and does not decode is retried: the turn ends on [D]
    again, in the world the fetch left, so nothing was written or
    quarantined, and the next turn starts by fetching [D] again.  A cursor write that
    fails is dropped: the turn moves on to the next day, and all that is left
    of the write is the one command in the trace; the store is as
    [processDate] left it, the process goes on. *)
Theorem loop_step_failures endDate D w :
  D <= endDate ->
  (forall data w1 e,
      fetchDataWithRetry env (encounterURL (time_Format env D)) 3 w = Done (Ok data) w1 ->
      json_Unmarshal_Bundle env data = Err e ->
      loop_step env endDate D w = Done (Some D) w1 /\
      exists rest,
        trace (final (loop_step env endDate D w1))
        = trace w1 ++ EvFetch (encounterURL (time_Format env D)) :: rest) /\
  (forall w2 e,
      processDate env (time_Format env D) w = Done None w2 ->
      redis_fault env (tick w2) = Some e ->
      exists w3,
        loop_step env endDate D w = Done (Some (D + day)) w3 /\
        trace w3 = trace w2 ++ [EvRedisSet "last_processed_date" (time_Format env D)] /\
        strings w3 = strings w2 /\ sets w3 = sets w2 /\ queue w3 = queue w2).
Proof.
  intros Hle. split.
  - intros data w1 e Hfetch Hdec. split; [|by apply loop_step_extends].
    unfold loop_step. rewrite bool_decide_false by lia.
    unfold bind at 1, processDate. cbv zeta. unfold bind at 1.
    by rewrite Hfetch, Hdec.
  - intros w2 e Hpd Hfault.
    unfold loop_step. rewrite bool_decide_false by lia.
    unfold bind at 1. rewrite Hpd. unfold bind, redis_Set, ret. rewrite Hfault.
    eexists. split; [reflexivity|]. done.
Qed.

End CursorClaims.

(** ** The claims on the concrete world *)

Import Scenario.

(** C1 fails on the code by a slip: an encounter whose participant array is
    present and empty misses a required field, yet it passes the validation,
    which only tests the slice against nil, and the next statement,
    [enc.Participant[0]], panics.  Nothing is quarantined and the process
    ends. *)
Theorem processEncounter_empty_participants_panic :
  lacks_required_field enc_no_participant url_e1 /\
  forall env clientID w,
    processEncounter env enc_no_participant url_e1 clientID w = Panic w.
Proof.
  split.
  - right. right. left. reflexivity.
  - intros env clientID w. by apply processEncounter_no_participant.
Qed.

(** C2 at work: on 2025-01-01 the batch is fetched, decoded and fanned out,
    and the loop moves on to 2025-01-02; with the server down the day is
    quarantined and the loop stays on it. *)
Lemma loop_step_cursor_witness :
  (jan1 <= jan2 /\
   exists w1 w2,
     fetchDataWithRetry healthy (encounterURL (time_Format healthy jan1)) 3 w0
     = Done (Ok "bundle-two") w1 /\
     json_Unmarshal_Bundle healthy "bundle-two" = Ok bundle_two /\
     fanout healthy 0 (Entry bundle_two) w1 = Done tt w2 /\
     exists w3,
       loop_step healthy jan2 jan1 w0 = Done (Some (jan1 + day)) w3 /\
       trace w3 = trace w2 ++ [EvRedisSet "last_processed_date" (time_Format healthy jan1)] /\
       (redis_fault healthy (tick w2) = None ->
        strings w3 !! "last_processed_date" = Some (time_Format healthy jan1))) /\
  (jan1 <= jan2 /\
   exists e w1,
     fetchDataWithRetry upstream_down (encounterURL (time_Format upstream_down jan1)) 3 w0
     = Done (Err e) w1 /\
     exists w2,
       loop_step upstream_down jan2 jan1 w0 = Done (Some jan1) w2 /\
       trace w2 = trace w1 ++ [EvRedisSAdd "unprocessed_dates"
                                 (time_Format upstream_down jan1)] /\
       strings w2 = strings w0 /\
       (redis_fault upstream_down (tick w1) = None ->
        time_Format upstream_down jan1 ∈ smembers "unprocessed_dates" w2)).
Proof.
  split.
  - split; [unfold jan1, jan2; lia|].
    eexists _, _. split; [reflexivity|]. split; [reflexivity|]. split; [reflexivity|].
    refine (loop_step_cursor healthy jan2 jan1 w0 (Ok "bundle-two") _ _ _ bundle_two _ _ _).
    + unfold jan1, jan2; lia.
    + reflexivity.
    + reflexivity.
    + reflexivity.
  - split; [unfold jan1, jan2; lia|].
    eexists _, _. split; [reflexivity|].
    refine (loop_step_cursor upstream_down jan2 jan1 w0 (Err _) _ _ _).
    + unfold jan1, jan2; lia.
    + reflexivity.
Defined.

(** C2 as stated fails: the batch of 2025-01-01 is fetched at the first
    attempt, but the payload is an HTML page that does not decode; the cursor
    is not written and the loop stays on 2025-01-01. *)
Lemma loop_step_undecodable_batch :
  exists w1,
    fetchDataWithRetry upstream_html (encounterURL (time_Format upstream_html jan1)) 3 w0
    = Done (Ok "<html>Service Unavailable</html>") w1 /\
    loop_step upstream_html jan2 jan1 w0 = Done (Some jan1) w1 /\
    strings w1 !! "last_processed_date" = None /\
    jan1 <> jan1 + day.
Proof.
  eexists. split; [reflexivity|]. split; [reflexivity|]. split; [reflexivity|].
  unfold jan1, day. lia.
Qed.

(** C3 at work: the cursor reads 2025-01-01 and the run fetches 2025-01-01. *)
Lemma resume_refetches_cursor_day_witness :
  strings w_resume !! "last_processed_date" = Some (time_Format healthy jan1) /\
  time_Format healthy jan1 <> "" /\
  time_Parse healthy (time_Format healthy jan1) = Ok jan1 /\
  resume healthy w_resume = Done (jan1, jan2) (emit (EvRedisGet "last_processed_date") w_resume) /\
  jan1 <= jan2 /\
  jan1 = jan1 /\
  (exists rest,
      trace (final (main healthy 3 w_resume))
      = trace w_resume ++ EvRedisGet "last_processed_date"
                       :: EvFetch (encounterURL (time_Format healthy jan1)) :: rest) /\
  (forall n d w',
      main_loop healthy n jan2 jan1 (emit (EvRedisGet "last_processed_date") w_resume)
      = Done (Some d) w' -> jan1 <= d).
Proof.
  assert (H1 : strings w_resume !! "last_processed_date" = Some (time_Format healthy jan1))
    by (vm_compute; reflexivity).
  assert (H2 : time_Format healthy jan1 <> "") by (vm_compute; discriminate).
  assert (H3 : time_Parse healthy (time_Format healthy jan1) = Ok jan1)
    by (vm_compute; reflexivity).
  assert (H4 : resume healthy w_resume
               = Done (jan1, jan2) (emit (EvRedisGet "last_processed_date") w_resume))
    by (vm_compute; reflexivity).
  assert (H5 : jan1 <= jan2) by (unfold jan1, jan2; lia).
  repeat (split; [assumption|]).
  exact (resume_refetches_cursor_day healthy w_resume jan1 jan1 jan2 _ 2 H1 H2 H3 H4 H5).
Defined.

(** C3 as stated fails: a first run completes 2025-01-01 and 2025-01-02 and
    leaves the cursor on 2025-01-02; the run that follows reads the cursor
    and fetches 2025-01-02 again, a day the first run had moved past. *)
Lemma rerun_fetches_completed_day :
  main healthy 5 w0 = Done None (final (main healthy 5 w0)) /\
  trace (final (main healthy 5 w0))
  = [EvRedisGet "last_processed_date";
     EvFetch (encounterURL "2025-01-01");
     EvFetch "https://hapi.fhir.org/baseR4/Practitioner/p1";
     EvFetch "https://hapi.fhir.org/baseR4/Patient/q1";
     EvSqsSend queue_url "{https://hapi.fhir.org/baseR4/Encounter/e1}" "001";
     EvRedisSAdd "invalid_encounters" url_e2;
     EvRedisSet "last_processed_date" "2025-01-01";
     EvFetch (encounterURL "2025-01-02");
     EvRedisSet "last_processed_date" "2025-01-02"] /\
  strings (final (main healthy 5 w0)) !! "last_processed_date" = Some "2025-01-02" /\
  trace (final (main healthy 5 (final (main healthy 5 w0))))
  = trace (final (main healthy 5 w0))
    ++ [EvRedisGet "last_processed_date";
        EvFetch (encounterURL "2025-01-02");
        EvRedisSet "last_processed_date" "2025-01-02"].
Proof. repeat split; vm_compute; reflexivity. Qed.

(** C6 at work: the first entry of the batch of 2025-01-01 is published
    under the key of the even positions. *)
Lemma entry_call_publishes_one_witness :
  exists w1 w2,
    Entry bundle_two !! 0%nat = Some entry_e1 /\
    valid_candidate enc_ok url_e1 "Practitioner/p1" /\
    fetchDataWithRetry healthy (baseR4 +:+ "Practitioner/p1") 3 w0
    = Done (Ok "practitioner-p1") w1 /\
    resolved (json_Unmarshal_Practitioner healthy) pr_Name (Ok "practitioner-p1")
    = Some practitioner_p1 /\
    fetchDataWithRetry healthy (baseR4 +:+ Reference (enc_Subject enc_ok)) 3 w1
    = Done (Ok "patient-q1") w2 /\
    resolved (json_Unmarshal_Patient healthy) pt_Name (Ok "patient-q1") = Some patient_q1 /\
    aws_LoadDefaultConfig healthy (tick w2) = None /\
    os_Getenv healthy "SQS_QUEUE_URL" <> "" /\
    json_Marshal healthy (enriched enc_ok url_e1 practitioner_p1 patient_q1)
    = Ok "{https://hapi.fhir.org/baseR4/Encounter/e1}" /\
    sqs_fault healthy (tick w2) = None /\
    goroutines healthy (Entry bundle_two) !! 0%nat = Some (entry_call healthy 0 entry_e1) /\
    exists w',
      entry_call healthy 0 entry_e1 w0 = Done tt w' /\
      trace w' = trace w2 ++ [EvSqsSend (os_Getenv healthy "SQS_QUEUE_URL")
                                "{https://hapi.fhir.org/baseR4/Encounter/e1}" "001"] /\
      count is_send (trace w') = S (count is_send (trace w0)) /\
      count is_sadd (trace w') = count is_sadd (trace w0) /\
      queue w' = queue w0 ++ [{| QueueUrl := os_Getenv healthy "SQS_QUEUE_URL";
                                 MessageBody := "{https://hapi.fhir.org/baseR4/Encounter/e1}";
                                 MessageGroupId := "001" |}] /\
      sets w' = sets w0.
Proof.
  assert (Hv : valid_candidate enc_ok url_e1 "Practitioner/p1").
  { split; [reflexivity|]. split; [|discriminate]. eexists _, _. split; reflexivity. }
  eexists _, _.
  split; [reflexivity|]. split; [exact Hv|].
  split; [reflexivity|]. split; [reflexivity|]. split; [reflexivity|].
  split; [reflexivity|]. split; [reflexivity|]. split; [discriminate|].
  split; [reflexivity|]. split; [reflexivity|].
  refine (entry_call_publishes_one healthy (Entry bundle_two) 0 entry_e1 "Practitioner/p1" w0
            (Ok "practitioner-p1") _ (Ok "patient-q1") _ practitioner_p1 patient_q1
            "{https://hapi.fhir.org/baseR4/Encounter/e1}" _ Hv _ _ _ _ _ _ _ _);
    try reflexivity.
  discriminate.
Defined.

(** C6 as stated fails: the same candidate, valid and with both references
    resolved, when the queue refuses the send.  Its call returns, the queue
    holds no message for it and the candidate is quarantined. *)
Lemma valid_candidate_not_published :
  let w1 := final (fetchDataWithRetry queue_down (baseR4 +:+ "Practitioner/p1") 3 w0) in
  let w2 := final (fetchDataWithRetry queue_down
                     (baseR4 +:+ Reference (enc_Subject enc_ok)) 3 w1) in
  let w' := final (entry_call queue_down 0 entry_e1 w0) in
  valid_candidate enc_ok url_e1 "Practitioner/p1" /\
  fetchDataWithRetry queue_down (baseR4 +:+ "Practitioner/p1") 3 w0
  = Done (Ok "practitioner-p1") w1 /\
  resolved (json_Unmarshal_Practitioner queue_down) pr_Name (Ok "practitioner-p1")
  = Some practitioner_p1 /\
  fetchDataWithRetry queue_down (baseR4 +:+ Reference (enc_Subject enc_ok)) 3 w1
  = Done (Ok "patient-q1") w2 /\
  resolved (json_Unmarshal_Patient queue_down) pt_Name (Ok "patient-q1")
  = Some patient_q1 /\
  entry_call queue_down 0 entry_e1 w0 = Done tt w' /\
  trace w' = trace w2 ++ [EvSqsSend queue_url "{https://hapi.fhir.org/baseR4/Encounter/e1}"
                            "001";
                          EvRedisSAdd "invalid_encounters" url_e1] /\
  queue w' = [] /\
  smembers "invalid_encounters" w' = {[ url_e1 ]}.
Proof.
  intros w1 w2 w'.
  split. { split; [reflexivity|]. split; [|discriminate]. eexists _, _. split; reflexivity. }
  repeat split; vm_compute; reflexivity.
Qed.

(** A candidate whose practitioner the server does not know (status 404 at
    each of the three attempts): C7 at work. *)
Lemma processEncounter_unresolved_witness :
  exists w1 w2,
    valid_candidate enc_unknown_doctor url_e1 "Practitioner/p9" /\
    fetchDataWithRetry healthy (baseR4 +:+ "Practitioner/p9") 3 w0
    = Done (Err (ErrNew "All attempts were failed")) w1 /\
    fetchDataWithRetry healthy (baseR4 +:+ Reference (enc_Subject enc_unknown_doctor)) 3 w1
    = Done (Ok "patient-q1") w2 /\
    (resolved (json_Unmarshal_Practitioner healthy) pr_Name
       (Err (ErrNew "All attempts were failed")) = None \/
     resolved (json_Unmarshal_Patient healthy) pt_Name (Ok "patient-q1") = None) /\
    exists w',
      processEncounter healthy enc_unknown_doctor url_e1 "001" w0 = Done tt w' /\
      trace w' = trace w1 ++ [EvRedisSAdd "invalid_encounters" url_e1] /\
      (redis_fault healthy (tick w1) = None ->
       url_e1 ∈ smembers "invalid_encounters" w') /\
      queue w' = queue w0 /\
      count is_send (trace w') = count is_send (trace w0).
Proof.
  assert (Hv : valid_candidate enc_unknown_doctor url_e1 "Practitioner/p9").
  { split; [reflexivity|]. split; [|discriminate]. eexists _, _. split; reflexivity. }
  eexists _, _.
  split; [exact Hv|]. split; [reflexivity|]. split; [reflexivity|].
  split; [left; reflexivity|].
  refine (processEncounter_unresolved healthy enc_unknown_doctor url_e1 "001"
            "Practitioner/p9" w0 (Err (ErrNew "All attempts were failed")) _
            (Ok "patient-q1") _ Hv _ _ _).
  - reflexivity.
  - reflexivity.
  - left. reflexivity.
Defined.

(** C8 at work: an HTML page in place of the batch of 2025-01-01, and a store
    that refuses the cursor write after the empty batch of 2025-01-02. *)
Lemma loop_step_failures_witness :
  jan1 <= jan2 /\ jan2 <= jan2 /\
  (exists w1,
      fetchDataWithRetry upstream_html (encounterURL (time_Format upstream_html jan1)) 3 w0
      = Done (Ok "<html>Service Unavailable</html>") w1 /\
      json_Unmarshal_Bundle upstream_html "<html>Service Unavailable</html>"
      = Err syntax_error /\
      loop_step upstream_html jan2 jan1 w0 = Done (Some jan1) w1 /\
      exists rest,
        trace (final (loop_step upstream_html jan2 jan1 w1))
        = trace w1 ++ EvFetch (encounterURL (time_Format upstream_html jan1)) :: rest) /\
  (exists w2,
      processDate store_down (time_Format store_down jan2) w0 = Done None w2 /\
      redis_fault store_down (tick w2) = Some (ErrNew "connection refused") /\
      exists w3,
        loop_step store_down jan2 jan2 w0 = Done (Some (jan2 + day)) w3 /\
        trace w3 = trace w2 ++ [EvRedisSet "last_processed_date"
                                  (time_Format store_down jan2)] /\
        strings w3 = strings w2 /\ sets w3 = sets w2 /\ queue w3 = queue w2).
Proof.
  assert (H1 : jan1 <= jan2) by (unfold jan1, jan2; lia).
  assert (H2 : jan2 <= jan2) by lia.
  split; [exact H1|]. split; [exact H2|]. split.
  - eexists. split; [reflexivity|]. split; [reflexivity|].
    refine (proj1 (loop_step_failures upstream_html jan2 jan1 w0 H1) _ _ syntax_error _ _);
      reflexivity.
  - eexists. split; [reflexivity|]. split; [reflexivity|].
    refine (proj2 (loop_step_failures store_down jan2 jan2 w0 H2) _ (ErrNew "connection refused")
              _ _); reflexivity.
Defined.

(** C8 as stated fails: the store refuses the cursor write for 2025-01-02.
    The turn returns, so the failure is not fatal; the loop is on the next
    day, so the day is not retried; the trace holds the one refused write
    and no SADD, so nothing was retried or quarantined; the cursor is not
    stored. *)
Lemma cursor_write_failure_dropped :
  exists w2 w3,
    processDate store_down "2025-01-02" w0 = Done None w2 /\
    redis_Set store_down "last_processed_date" "2025-01-02" w2
    = Done (Some (ErrNew "connection refused")) w3 /\
    loop_step store_down jan2 jan2 w0 = Done (Some (jan2 + day)) w3 /\
    trace w3 = [EvFetch (encounterURL "2025-01-02");
                EvRedisSet "last_processed_date" "2025-01-02"] /\
    count is_sadd (trace w3) = 0%nat /\
    strings w3 !! "last_processed_date" = None /\
    smembers "unprocessed_dates" w3 = ∅ /\ smembers "invalid_encounters" w3 = ∅.
Proof.
  eexists _, _. repeat (split; [reflexivity|]). reflexivity.
Qed.

(** C10 at work: SQS_QUEUE_URL is empty, the AWS configuration loads and the
    first entry of the batch of 2025-01-01 enters [sendToSQS]. *)
Lemma empty_queue_url_fatal_at_publish_witness :
  exists w1 w2,
    os_Getenv no_queue_url "SQS_QUEUE_URL" = "" /\
    valid_candidate enc_ok url_e1 "Practitioner/p1" /\
    fetchDataWithRetry no_queue_url (baseR4 +:+ "Practitioner/p1") 3 w0
    = Done (Ok "practitioner-p1") w1 /\
    resolved (json_Unmarshal_Practitioner no_queue_url) pr_Name (Ok "practitioner-p1")
    = Some practitioner_p1 /\
    fetchDataWithRetry no_queue_url (baseR4 +:+ Reference (enc_Subject enc_ok)) 3 w1
    = Done (Ok "patient-q1") w2 /\
    resolved (json_Unmarshal_Patient no_queue_url) pt_Name (Ok "patient-q1")
    = Some patient_q1 /\
    (processEncounter no_queue_url enc_ok url_e1 "001" w0 = Fatal w2 /\
     sets w2 = sets w0 /\ queue w2 = queue w0 /\
     count is_sadd (trace w2) = count is_sadd (trace w0) /\
     count is_send (trace w2) = count is_send (trace w0)) /\
    (forall queueURL w_start,
        resume (with_queue_url queueURL no_queue_url) w_start = resume no_queue_url w_start).
Proof.
  assert (Hv : valid_candidate enc_ok url_e1 "Practitioner/p1").
  { split; [reflexivity|]. split; [|discriminate]. eexists _, _. split; reflexivity. }
  eexists _, _.
  split; [reflexivity|]. split; [exact Hv|].
  split; [reflexivity|]. split; [reflexivity|]. split; [reflexivity|].
  split; [reflexivity|].
  refine (empty_queue_url_fatal_at_publish no_queue_url enc_ok url_e1 "001"
            "Practitioner/p1" w0 (Ok "practitioner-p1") _ (Ok "patient-q1") _
            practitioner_p1 patient_q1 _ Hv _ _ _ _); reflexivity.
Defined.

(** C10 as stated fails: SQS_QUEUE_URL is empty and the AWS configuration
    does not load.  The first entry of the batch of 2025-01-01, valid and
    with both references resolved, enters [sendToSQS], which returns the
    configuration error; the candidate is quarantined, its call returns and
    so does the whole day. *)
Lemma empty_queue_url_config_failure_quarantined :
  let w1 := final (fetchDataWithRetry no_queue_no_config
                     (baseR4 +:+ "Practitioner/p1") 3 w0) in
  let w2 := final (fetchDataWithRetry no_queue_no_config
                     (baseR4 +:+ Reference (enc_Subject enc_ok)) 3 w1) in
  let w' := final (processEncounter no_queue_no_config enc_ok url_e1 "001" w0) in
  let w_day := final (processDate no_queue_no_config "2025-01-01" w0) in
  os_Getenv no_queue_no_config "SQS_QUEUE_URL" = "" /\
  valid_candidate enc_ok url_e1 "Practitioner/p1" /\
  fetchDataWithRetry no_queue_no_config (baseR4 +:+ "Practitioner/p1") 3 w0
  = Done (Ok "practitioner-p1") w1 /\
  resolved (json_Unmarshal_Practitioner no_queue_no_config) pr_Name (Ok "practitioner-p1")
  = Some practitioner_p1 /\
  fetchDataWithRetry no_queue_no_config (baseR4 +:+ Reference (enc_Subject enc_ok)) 3 w1
  = Done (Ok "patient-q1") w2 /\
  resolved (json_Unmarshal_Patient no_queue_no_config) pt_Name (Ok "patient-q1")
  = Some patient_q1 /\
  sendToSQS no_queue_no_config (enriched enc_ok url_e1 practitioner_p1 patient_q1) "001" w2
  = Done (Some (ErrWrap "error loading AWS config: " (ErrNew "invalid retry mode"))) w2 /\
  processEncounter no_queue_no_config enc_ok url_e1 "001" w0 = Done tt w' /\
  trace w' = trace w2 ++ [EvRedisSAdd "invalid_encounters" url_e1] /\
  smembers "invalid_encounters" w' = {[ url_e1 ]} /\
  processDate no_queue_no_config "2025-01-01" w0 = Done None w_day.
Proof.
  intros w1 w2 w' w_day.
  split; [reflexivity|].
  split. { split; [reflexivity|]. split; [|discriminate]. eexists _, _. split; reflexivity. }
  repeat split; vm_compute; reflexivity.
Qed.

(** ** Further properties of the code *)

Section RetryReplies.

Variable env : Env.

Lemma fetchData_attempt url w :
  fetchData env url w =
  Done match attempt_ok (http_Do env (tick w) url) with
       | Some b => Ok b
       | None =>
           match http_Do env (tick w) url with
           | BadRequest e => Err (ErrWrap "error creating request: " e)
           | NoResponse e => Err (ErrWrap "error calling API: " e)
           | Response status (Err e) =>
               if bool_decide (status = 200)
               then Err (ErrWrap "error reading API response: " e)
               else Err (ErrNew ("API returned status " +:+ pretty status))
           | Response status (Ok _) =>
               Err (ErrNew ("API returned status " +:+ pretty status))
           end
       end (emit (EvFetch url) w).
Proof.
  unfold fetchData, attempt_ok.
  destruct (http_Do env (tick w) url) as [e|e|status [b|e]]; try done;
    repeat case_bool_decide; done.
Qed.

Lemma length_schedule wait url k :
  length (schedule wait url (S k)) = (2 * k + 1)%nat.
Proof.
  induction k as [|k IH]; [done|].
  rewrite schedule_step, length_app, IH. simpl. lia.
Qed.

(** The tick at which attempt [j] (counted from 0) is issued. *)
Lemma tick_before_attempt url j w w0 :
  trace w = trace w0 ++ schedule waitTime url j ->
  tick (if bool_decide (0 < Z.of_nat j) then emit (EvSleep (waitTime (Z.of_nat j))) w else w)
  = (tick w0 + 2 * j)%nat.
Proof.
  intros Ht. destruct j as [|j].
  - rewrite bool_decide_false by lia. unfold tick. rewrite Ht. simpl.
    rewrite app_nil_r. lia.
  - rewrite bool_decide_true by lia. unfold tick. simpl.
    rewrite Ht, !length_app, length_schedule. simpl. lia.
Qed.

(** The loop from attempt [i] on, read off the replies: it stops at the
    first attempt that succeeds, or runs out of turns. *)
Lemma retry_loop_replies url n i w w0 :
  trace w = trace w0 ++ schedule waitTime url i ->
  (forall k data,
      (i <= k < i + n)%nat ->
      (forall j, (i <= j < k)%nat -> attempt_ok (http_Do env (tick w0 + 2 * j) url) = None) ->
      attempt_ok (http_Do env (tick w0 + 2 * k) url) = Some data ->
      exists w',
        retry_loop env url n (Z.of_nat i) w = Done (Ok data) w' /\
        trace w' = trace w0 ++ schedule waitTime url (S k)) /\
  ((forall j, (i <= j < i + n)%nat -> attempt_ok (http_Do env (tick w0 + 2 * j) url) = None) ->
   exists w',
     retry_loop env url n (Z.of_nat i) w = Done (Err (ErrNew "All attempts were failed")) w' /\
     trace w' = trace w0 ++ schedule waitTime url (i + n)).
Proof.
  revert i w. induction n as [|n IH]; intros i w Ht.
  - split; [intros k data Hk; lia|].
    intros _. exists w. by rewrite Nat.add_0_r.
  - set (w1 := if bool_decide (0 < Z.of_nat i)
               then emit (EvSleep (waitTime (Z.of_nat i))) w else w).
    assert (Hpre : (if bool_decide (0 < Z.of_nat i) then time_Sleep (waitTime (Z.of_nat i))
                    else ret tt) w = Done tt w1).
    { unfold w1. case_bool_decide; reflexivity. }
    assert (Htick : tick w1 = (tick w0 + 2 * i)%nat) by (by apply (tick_before_attempt url)).
    assert (Htr : trace (emit (EvFetch url) w1) = trace w0 ++ schedule waitTime url (S i)).
    { unfold w1. destruct i as [|i].
      - rewrite bool_decide_false by lia. simpl. rewrite Ht. simpl. by rewrite app_nil_r.
      - rewrite bool_decide_true by lia. rewrite schedule_step. simpl.
        rewrite Ht. by rewrite <- !app_assoc. }
    assert (Hrun : retry_loop env url (S n) (Z.of_nat i) w =
                   match attempt_ok (http_Do env (tick w0 + 2 * i) url) with
                   | Some b => Done (Ok b) (emit (EvFetch url) w1)
                   | None => retry_loop env url n (Z.of_nat (S i)) (emit (EvFetch url) w1)
                   end).
    { cbn [retry_loop]. unfold bind at 1. rewrite Hpre. unfold bind at 1.
      rewrite fetchData_attempt, Htick.
      replace (Z.of_nat i + 1) with (Z.of_nat (S i)) by lia.
      destruct (attempt_ok (http_Do env (tick w0 + 2 * i) url)); [done|].
      by destruct (http_Do env (tick w0 + 2 * i) url) as [?|?|s [?|?]];
        try destruct (bool_decide (s = 200)). }
    destruct (IH (S i) _ Htr) as [IHok IHerr].
    split.
    + intros k data Hk Hfail Hok. rewrite Hrun.
      destruct (decide (k = i)) as [->|Hne].
      * rewrite Hok. by eexists.
      * rewrite Hfail by lia. apply IHok; [lia| |done].
        intros j Hj. apply Hfail. lia.
    + intros Hfail. rewrite Hrun, Hfail by lia.
      replace (i + S n)%nat with (S i + n)%nat by lia.
      apply IHerr. intros j Hj. apply Hfail. lia.
Qed.

(** X1: the retrying fetch returns the bytes of the first attempt that is
    answered with status 200 and a readable body.  Attempt [j] (counted from
    0) is the call issued at tick [tick w + 2 * j]; when the attempts before
    attempt [k] fail, attempt [k] succeeds and [k] is within the budget, the
    call returns that attempt's bytes after exactly [k + 1] attempts and
    makes no later attempt. *)
Theorem fetchDataWithRetry_first_success url maxRetries w k data :
  (k < Z.to_nat maxRetries)%nat ->
  (forall j, (j < k)%nat -> attempt_ok (http_Do env (tick w + 2 * j) url) = None) ->
  attempt_ok (http_Do env (tick w + 2 * k) url) = Some data ->
  exists w',
    fetchDataWithRetry env url maxRetries w = Done (Ok data) w' /\
    trace w' = trace w ++ schedule waitTime url (S k) /\
    count is_fetch (schedule waitTime url (S k)) = S k.
Proof.
  intros Hk Hfail Hok.
  destruct (retry_loop_replies url (Z.to_nat maxRetries) 0 w w) as [H _].
  { simpl. by rewrite app_nil_r. }
  destruct (H k data) as (w' & E & Ht); [lia| |done|].
  { intros j Hj. apply Hfail. lia. }
  exists w'. split; [exact E|]. split; [exact Ht|]. apply count_fetch_schedule.
Qed.

(** X2: when every attempt within the budget fails, the retrying fetch
    returns its terminal error after exactly [maxRetries] attempts; with a
    budget of zero or less it issues no call at all and fails at once. *)
Theorem fetchDataWithRetry_exhausted url maxRetries w :
  (forall j, (j < Z.to_nat maxRetries)%nat ->
             attempt_ok (http_Do env (tick w + 2 * j) url) = None) ->
  exists w',
    fetchDataWithRetry env url maxRetries w = Done (Err (ErrNew "All attempts were failed")) w' /\
    trace w' = trace w ++ schedule waitTime url (Z.to_nat maxRetries) /\
    count is_fetch (schedule waitTime url (Z.to_nat maxRetries)) = Z.to_nat maxRetries /\
    (maxRetries <= 0 -> w' = w).
Proof.
  intros Hfail.
  destruct (retry_loop_replies url (Z.to_nat maxRetries) 0 w w) as [_ H].
  { simpl. by rewrite app_nil_r. }
  destruct H as (w' & E & Ht).
  { intros j Hj. apply Hfail. lia. }
  exists w'. split; [exact E|]. split; [exact Ht|].
  split; [apply count_fetch_schedule|].
  intros Hle. revert E. unfold fetchDataWithRetry.
  replace (Z.to_nat maxRetries) with 0%nat by lia. simpl. by intros [= <-].
Qed.

Lemma slept_app t1 t2 : slept (t1 ++ t2) = slept t1 + slept t2.
Proof.
  induction t1 as [|e t1 IH]; [done|]. simpl. rewrite IH. destruct e; lia.
Qed.

Lemma slept_backoff url k :
  (k <= 33)%nat -> slept (schedule waitTime url (S k)) = (2 ^ Z.of_nat (S k) - 2) * Second.
Proof.
  induction k as [|k IH]; intros Hk; [done|].
  rewrite schedule_step, slept_app, IH by lia. simpl.
  rewrite waitTime_exact by lia.
  assert (H0 : 0 < 2 ^ Z.of_nat (S k)) by (apply Z.pow_pos_nonneg; lia).
  replace (Z.of_nat (S (S k))) with (Z.of_nat (S k) + 1) by lia.
  rewrite Z.pow_add_r by lia. unfold Second. lia.
Qed.

(** X3: a retrying fetch with a budget of [maxRetries] attempts, from 1 to
    34, sleeps at most [2^maxRetries - 2] seconds in all (6 seconds for the
    budget of 3 used throughout), and exactly that long when it fails. *)
Theorem fetchDataWithRetry_total_sleep url maxRetries w r w' :
  1 <= maxRetries <= 34 ->
  fetchDataWithRetry env url maxRetries w = Done r w' ->
  exists delta,
    trace w' = trace w ++ delta /\
    0 <= slept delta <= (2 ^ maxRetries - 2) * Second /\
    match r with
    | Ok _ => True
    | Err _ => slept delta = (2 ^ maxRetries - 2) * Second
    end.
Proof.
  intros Hmax Hrun.
  destruct (fetchDataWithRetry_spec env url maxRetries w)
    as (k & r0 & w0 & E & [Hk Hpos] & Ht & _ & _ & _ & Hr).
  rewrite Hrun in E. injection E as <- <-.
  exists (schedule waitTime url k). split; [exact Ht|].
  destruct k as [|k]; [lia|].
  rewrite slept_backoff by lia.
  assert (Hmono : 2 ^ Z.of_nat (S k) <= 2 ^ maxRetries) by (apply Z.pow_le_mono_r; lia).
  assert (H2 : 2 <= 2 ^ Z.of_nat (S k)).
  { change 2 with (2 ^ 1) at 1. apply Z.pow_le_mono_r; lia. }
  split; [unfold Second; lia|].
  destruct r as [data|e]; [done|]. destruct Hr as [_ Hk'].
  rewrite Hk'. rewrite Z2Nat.id by lia. done.
Qed.

(** X4: one call of [fetchData] always returns, and all it adds to the world
    is its own entry in the trace, the attempt: it never ends the process
    and touches neither the store nor the queue.  What it returns is decided
    by the reply alone.  It returns bytes exactly when the server answers
    with status 200 and the body can be read, and the bytes are that body.
    An answer with any other status, other 2xx codes included, gives the
    error "API returned status <code>", whatever the body.  A request that
    cannot be built, a transport failure and an unreadable body each give
    their own error, which wraps the cause. *)
Theorem fetchData_outcome url w :
  exists r,
    fetchData env url w = Done r (emit (EvFetch url) w) /\
    (forall b, r = Ok b <-> http_Do env (tick w) url = Response 200 (Ok b)) /\
    (forall status body,
        http_Do env (tick w) url = Response status body -> status <> 200 ->
        r = Err (ErrNew ("API returned status " +:+ pretty status))) /\
    (forall e, http_Do env (tick w) url = BadRequest e ->
               r = Err (ErrWrap "error creating request: " e)) /\
    (forall e, http_Do env (tick w) url = NoResponse e ->
               r = Err (ErrWrap "error calling API: " e)) /\
    (forall e, http_Do env (tick w) url = Response 200 (Err e) ->
               r = Err (ErrWrap "error reading API response: " e)).
Proof.
  unfold fetchData.
  destruct (http_Do env (tick w) url) as [e|e|status [b|e]];
    try case_bool_decide; (eexists; split; [reflexivity|]);
    repeat split; intros; simplify_eq; done.
Qed.

End RetryReplies.

Section BackoffClaims.

Variable env : Env.




End BackoffClaims.


Section References.

Lemma strings_Split_nonempty s : strings_Split s "/" <> [].
Proof.
  destruct s as [|c s]; [done|]. simpl.
  case_bool_decide; [done|]. by destruct (strings_Split s "/").
Qed.

Lemma strings_Split_no_slash s : has_slash s = false -> strings_Split s "/" = [s].
Proof.
  induction s as [|c s IH]; [done|]. simpl. intros H.
  apply orb_false_elim in H as [Hc Hs]. rewrite Hc, IH; done.
Qed.

(** Splitting at a separator splits the list of parts. *)
Lemma strings_Split_app p rest :
  strings_Split (p +:+ "/" +:+ rest) "/" = strings_Split p "/" ++ strings_Split rest "/".
Proof.
  induction p as [|c p IH]; [done|]. simpl.
  case_bool_decide; [by rewrite IH|].
  rewrite IH. pose proof (strings_Split_nonempty p).
  by destruct (strings_Split p "/").
Qed.

Lemma last_slash s :
  has_slash s = true ->
  exists p rest, s = p +:+ "/" +:+ rest /\ has_slash rest = false.
Proof.
  induction s as [|c s IH]; [done|]. simpl. intros H.
  destruct (has_slash s) eqn:Hs.
  - destruct (IH eq_refl) as (p & rest & -> & Hrest). by exists (String c p), rest.
  - rewrite orb_false_r in H. apply bool_decide_eq_true in H as ->. by exists "", s.
Qed.

(** X6: for a reference of the form [prefix/id] whose [id] holds no "/",
    such as [Practitioner/123] or a full URL ending in the id,
    [extractReferenceID] returns [id]. *)
Theorem extractReferenceID_last_segment p id :
  has_slash id = false -> extractReferenceID (p +:+ "/" +:+ id) = id.
Proof.
  intros Hid. unfold extractReferenceID.
  rewrite strings_Split_app, (strings_Split_no_slash id Hid).
  pose proof (strings_Split_nonempty p) as Hp.
  destruct (strings_Split p "/") as [|q qs]; [done|].
  rewrite bool_decide_true by (rewrite length_app; simpl; lia).
  by rewrite List.last_last.
Qed.

(** X5: [extractReferenceID] returns the part of the reference after its
    last "/": the result holds no "/", and the reference is the result
    itself or ends in "/" followed by the result.  A reference without "/"
    comes back unchanged, one that ends in "/" gives the empty string, and
    applying the function twice changes nothing more. *)
Theorem extractReferenceID_suffix ref :
  has_slash (extractReferenceID ref) = false /\
  (ref = extractReferenceID ref \/
   exists p, ref = p +:+ "/" +:+ extractReferenceID ref) /\
  (has_slash ref = false -> extractReferenceID ref = ref) /\
  extractReferenceID (ref +:+ "/") = "" /\
  extractReferenceID (extractReferenceID ref) = extractReferenceID ref.
Proof.
  assert (Hno : forall s, has_slash s = false -> extractReferenceID s = s).
  { intros s Hs. unfold extractReferenceID. by rewrite strings_Split_no_slash. }
  assert (Hseg : forall p id, has_slash id = false ->
                              extractReferenceID (p +:+ "/" +:+ id) = id).
  { intros p id Hid. unfold extractReferenceID.
    rewrite strings_Split_app, (strings_Split_no_slash id Hid).
    pose proof (strings_Split_nonempty p) as Hp.
    destruct (strings_Split p "/") as [|q qs]; [done|].
    rewrite bool_decide_true by (rewrite length_app; simpl; lia).
    by rewrite List.last_last. }
  assert (H1 : has_slash (extractReferenceID ref) = false /\
               (ref = extractReferenceID ref \/
                exists p, ref = p +:+ "/" +:+ extractReferenceID ref)).
  { destruct (has_slash ref) eqn:Href.
    - destruct (last_slash ref Href) as (p & rest & -> & Hrest).
      rewrite Hseg by done. split; [done|]. right. by exists p.
    - rewrite Hno by done. split; [done|]. by left. }
  destruct H1 as [Hres Hshape].
  split; [done|]. split; [done|]. split; [apply Hno|].
  split; [exact (Hseg ref "" eq_refl)|]. by apply Hno.
Qed.

End References.

Section CandidateEdges.

Variable env : Env.

(** What [sendToSQS] leaves behind, by the way it ends. *)
Lemma sendToSQS_outcome message clientID w :
  match sendToSQS env message clientID w with
  | Done None w' =>
      strings w' = strings w /\ sets w' = sets w /\
      exists body,
        json_Marshal env message = Ok body /\
        trace w' = trace w ++ [EvSqsSend (os_Getenv env "SQS_QUEUE_URL") body clientID] /\
        queue w' = queue w ++ [{| QueueUrl := os_Getenv env "SQS_QUEUE_URL";
                                  MessageBody := body; MessageGroupId := clientID |}]
  | Done (Some e) w' =>
      queue w' = queue w /\ strings w' = strings w /\ sets w' = sets w /\
      exists delta,
        trace w' = trace w ++ delta /\ count is_sadd delta = 0%nat /\
        count is_fetch delta = 0%nat
  | Fatal w' => w' = w /\ os_Getenv env "SQS_QUEUE_URL" = ""
  | Panic _ => False
  end.
Proof.
  unfold sendToSQS, bind, ret, log_Fatal.
  destruct (aws_LoadDefaultConfig env (tick w)).
  { repeat split; try done. exists []. by rewrite app_nil_r. }
  case_bool_decide; [done|].
  destruct (json_Marshal env message) as [body|e'].
  - unfold sqs_SendMessage. destruct (sqs_fault env (tick w)); simpl.
    + repeat split; try done. by eexists.
    + repeat split; try done. by exists body.
  - repeat split; try done. exists []. by rewrite app_nil_r.
Qed.

(** X7: a candidate that misses a required field (empty status, class code,
    subject reference or identifying URL, or no participant array) is
    quarantined at once, provided its participant array is not present and
    empty: the call returns after the single command SADD invalid_encounters
    with its URL, without any fetch or send, and the URL is in the set when
    the store applies the command. *)
Theorem processEncounter_validation_failure enc fullUrl clientID w :
  lacks_required_field enc fullUrl ->
  enc_Participant enc <> Some [] ->
  exists w',
    processEncounter env enc fullUrl clientID w = Done tt w' /\
    trace w' = trace w ++ [EvRedisSAdd "invalid_encounters" fullUrl] /\
    strings w' = strings w /\ queue w' = queue w /\
    (redis_fault env (tick w) = None -> fullUrl ∈ smembers "invalid_encounters" w').
Proof.
  intros Hlack Hne.
  assert (Hmf : missing_field enc fullUrl = true).
  { unfold missing_field.
    destruct Hlack as [H|[H|[H|[H|H]]]].
    - by rewrite (bool_decide_true _ H).
    - rewrite (bool_decide_true _ H). by rewrite orb_true_r.
    - destruct (enc_Participant enc) as [[|p ps]|]; try done.
      simpl. by rewrite !orb_true_r.
    - rewrite (bool_decide_true _ H). by rewrite !orb_true_r.
    - rewrite (bool_decide_true _ H). by rewrite !orb_true_r. }
  unfold processEncounter. rewrite Hmf.
  destruct (quarantine_spec env fullUrl w) as (w' & E & Ht & Hq & Hf & Hin).
  exists w'. repeat split; try done. by destruct Hf as (_ & ? & _).
Qed.

(** X8: a candidate that passes the validation but whose first participant
    carries an empty reference is dropped without a trace, whatever its
    other participants are: a batch made of such entries returns with the
    world as it was, so none of them is fetched for, published or
    quarantined. *)
Theorem fanout_blank_practitioners entries i w :
  Forall (fun entry =>
            missing_field (Resource entry) (FullUrl entry) = false /\
            exists p0 ps, enc_Participant (Resource entry) = Some (p0 :: ps) /\
                          Reference (Individual p0) = "") entries ->
  fanout env i entries w = Done tt w.
Proof.
  intros Hall. revert i. induction Hall as [|e entries He _ IH]; intros i; [done|].
  destruct He as (Hmf & p0 & ps & Hp & Href).
  cbn [fanout]. unfold bind, processEncounter.
  rewrite Hmf, Hp, (bool_decide_true _ Href). apply IH.
Qed.

(** X9: when [sendToSQS] returns an error for a valid candidate whose two
    references have resolved (the AWS configuration does not load, the
    message does not serialise, or the queue refuses the send), the
    candidate is quarantined: SADD invalid_encounters with its URL follows,
    the queue is as before the call, and the URL is in the set when the
    store applies the command. *)
Theorem processEncounter_publish_failure enc fullUrl clientID practitionerRef
    w r1 w1 r2 w2 practitioner patient e w3 :
  valid_candidate enc fullUrl practitionerRef ->
  fetchDataWithRetry env (baseR4 +:+ practitionerRef) 3 w = Done r1 w1 ->
  resolved (json_Unmarshal_Practitioner env) pr_Name r1 = Some practitioner ->
  fetchDataWithRetry env (baseR4 +:+ Reference (enc_Subject enc)) 3 w1 = Done r2 w2 ->
  resolved (json_Unmarshal_Patient env) pt_Name r2 = Some patient ->
  sendToSQS env (enriched enc fullUrl practitioner patient) clientID w2 = Done (Some e) w3 ->
  exists w',
    processEncounter env enc fullUrl clientID w = Done tt w' /\
    trace w' = trace w3 ++ [EvRedisSAdd "invalid_encounters" fullUrl] /\
    queue w' = queue w /\
    (redis_fault env (tick w3) = None -> fullUrl ∈ smembers "invalid_encounters" w').
Proof.
  intros Hvalid H1 Hr1 H2 Hr2 Hsend.
  rewrite (processEncounter_valid env enc fullUrl clientID _ w r1 w1 r2 w2 Hvalid H1 H2),
    Hr1, Hr2.
  unfold bind at 1. rewrite Hsend.
  pose proof (sendToSQS_outcome (enriched enc fullUrl practitioner patient) clientID w2)
    as Hout.
  rewrite Hsend in Hout. destruct Hout as (Hq3 & _).
  destruct (fetchDataWithRetry_spec env (baseR4 +:+ practitionerRef) 3 w)
    as (? & ? & ? & E1 & _ & _ & _ & _ & Hq1 & _).
  rewrite H1 in E1. injection E1 as <- <-.
  destruct (fetchDataWithRetry_spec env (baseR4 +:+ Reference (enc_Subject enc)) 3 w1)
    as (? & ? & ? & E2 & _ & _ & _ & _ & Hq2 & _).
  rewrite H2 in E2. injection E2 as <- <-.
  destruct (quarantine_spec env fullUrl w3) as (w' & E & Ht & Hq & _ & Hin).
  exists w'. repeat split; try done. congruence.
Qed.

(** X10: no record is both published and quarantined.  Whatever the
    candidate and however the call ends, either the queue is as before, or
    it holds one message more and the call has issued no SADD and left
    every set of the store as it was. *)
Theorem processEncounter_published_or_quarantined enc fullUrl clientID w :
  let w' := final (processEncounter env enc fullUrl clientID w) in
  exists delta,
    trace w' = trace w ++ delta /\
    (queue w' = queue w \/
     (exists m, queue w' = queue w ++ [m]) /\
     count is_sadd delta = 0%nat /\ sets w' = sets w).
Proof.
  intros w'. subst w'.
  set (Q := fun w' : World =>
    exists delta,
      trace w' = trace w ++ delta /\
      (queue w' = queue w \/
       (exists m, queue w' = queue w ++ [m]) /\
       count is_sadd delta = 0%nat /\ sets w' = sets w)).
  change (Q (final (processEncounter env enc fullUrl clientID w))).
  assert (Hq : forall w1 d, trace w1 = trace w ++ d -> queue w1 = queue w ->
    Q (final ((redis_SAdd env "invalid_encounters" fullUrl ;; ret tt) w1))).
  { intros w1 d Ht1 Hq1.
    destruct (quarantine_spec env fullUrl w1) as (w' & E & Ht & Hq & _).
    rewrite E. simpl. eexists. split; [by rewrite Ht, Ht1, <- app_assoc|].
    left. congruence. }
  assert (Hsame : forall w1 d, trace w1 = trace w ++ d -> queue w1 = queue w -> Q w1).
  { intros w1 d Ht1 Hq1. exists d. auto. }
  assert (Hw : trace w = trace w ++ []) by (by rewrite app_nil_r).
  unfold processEncounter.
  destruct (missing_field enc fullUrl); [by apply (Hq w [])|].
  destruct (enc_Participant enc) as [[|p0 ps]|]; try (by apply (Hsame w [])).
  repeat (case_bool_decide; [by apply (Hsame w [])|]).
  unfold bind at 1.
  destruct (fetchDataWithRetry_spec env (baseR4 +:+ Reference (Individual p0)) 3 w)
    as (k1 & r1 & w1 & E1 & _ & Ht1 & _ & Hm1 & Hq1 & _).
  rewrite E1.
  destruct r1 as [data1|e1]; [|by apply (Hq w1 _ Ht1)].
  destruct (json_Unmarshal_Practitioner env data1) as [practitioner|e1];
    [|by apply (Hq w1 _ Ht1)].
  destruct (has_given_name (pr_Name practitioner)); [|by apply (Hq w1 _ Ht1)]. cbn [negb].
  unfold bind at 1.
  destruct (fetchDataWithRetry_spec env (baseR4 +:+ Reference (enc_Subject enc)) 3 w1)
    as (k2 & r2 & w2 & E2 & _ & Ht2 & _ & Hm2 & Hq2 & _).
  rewrite E2.
  assert (Ht12 : trace w2 = trace w ++ (schedule waitTime (baseR4 +:+ Reference (Individual p0)) k1
                                        ++ schedule waitTime
                                             (baseR4 +:+ Reference (enc_Subject enc)) k2))
    by (by rewrite Ht2, Ht1, <- app_assoc).
  assert (Hq12 : queue w2 = queue w) by congruence.
  destruct r2 as [data2|e2]; [|by apply (Hq w2 _ Ht12)].
  destruct (json_Unmarshal_Patient env data2) as [patient|e2]; [|by apply (Hq w2 _ Ht12)].
  destruct (has_given_name (pt_Name patient)); [|by apply (Hq w2 _ Ht12)]. cbn [negb].
  unfold bind at 1.
  match goal with
  | |- context [sendToSQS env ?m clientID w2] =>
      pose proof (sendToSQS_outcome m clientID w2) as Hout;
      destruct (sendToSQS env m clientID w2) as [[e|] w3|w3|w3]
  end.
  - destruct Hout as (Hq3 & _ & _ & d3 & Ht3 & _).
    eapply (Hq w3); [by rewrite Ht3, Ht12, <- app_assoc|congruence].
  - destruct Hout as (_ & Hset3 & body & _ & Ht3 & Hqu3).
    simpl. unfold Q. eexists. split; [by rewrite Ht3, Ht12, <- app_assoc|].
    right. split; [eexists; by rewrite Hqu3, Hq12|]. split.
    + rewrite !count_app, !schedule_count_0; done.
    + congruence.
  - destruct Hout as [-> _]. by apply (Hsame w2 _ Ht12).
  - done.
Qed.

End CandidateEdges.

Section BatchBudget.

Variable env : Env.

Lemma fetch_budget_refl w : fetch_budget 0 w w.
Proof. exists []. by rewrite app_nil_r. Qed.

Lemma fetch_budget_trans a b w w1 w2 :
  fetch_budget a w w1 -> fetch_budget b w1 w2 -> fetch_budget (a + b) w w2.
Proof.
  intros (d1 & Ht1 & Hc1) (d2 & Ht2 & Hc2). exists (d1 ++ d2).
  rewrite Ht2, Ht1, <- app_assoc, count_app. split; [done|lia].
Qed.

Lemma fetch_budget_weaken a b w w' : (a <= b)%nat -> fetch_budget a w w' -> fetch_budget b w w'.
Proof. intros Hab (d & Ht & Hc). exists d. split; [done|lia]. Qed.

Lemma fetch_budget_retry url w r w1 :
  fetchDataWithRetry env url 3 w = Done r w1 -> fetch_budget 3 w w1.
Proof.
  intros Hrun.
  destruct (fetchDataWithRetry_spec env url 3 w) as (k & r' & w' & E & [Hk _] & Ht & _).
  rewrite Hrun in E. injection E as <- <-.
  exists (schedule waitTime url k). split; [done|]. rewrite count_fetch_schedule. lia.
Qed.

Lemma fetch_budget_quarantine fullUrl w :
  fetch_budget 0 w (final ((redis_SAdd env "invalid_encounters" fullUrl ;; ret tt) w)).
Proof.
  destruct (quarantine_spec env fullUrl w) as (w' & E & Ht & _).
  rewrite E. simpl. exists [EvRedisSAdd "invalid_encounters" fullUrl]. by split.
Qed.

(** One candidate costs at most six requests: two references, three
    attempts each. *)
Lemma processEncounter_fetch_budget enc fullUrl clientID w :
  fetch_budget 6 w (final (processEncounter env enc fullUrl clientID w)).
Proof.
  assert (Hq : forall n w1, (n <= 6)%nat -> fetch_budget n w w1 ->
    fetch_budget 6 w (final ((redis_SAdd env "invalid_encounters" fullUrl ;; ret tt) w1))).
  { intros n w1 Hn H1. apply (fetch_budget_weaken (n + 0)); [lia|].
    apply (fetch_budget_trans _ _ _ w1); [done|apply fetch_budget_quarantine]. }
  assert (H0 : fetch_budget 6 w w).
  { apply (fetch_budget_weaken 0); [lia|apply fetch_budget_refl]. }
  unfold processEncounter.
  destruct (missing_field enc fullUrl); [apply (Hq 0%nat); [lia|apply fetch_budget_refl]|].
  destruct (enc_Participant enc) as [[|p0 ps]|]; try exact H0.
  repeat (case_bool_decide; [exact H0|]).
  unfold bind at 1.
  destruct (fetchDataWithRetry_spec env (baseR4 +:+ Reference (Individual p0)) 3 w)
    as (k1 & r1 & w1 & E1 & _).
  rewrite E1. pose proof (fetch_budget_retry _ _ _ _ E1) as F1.
  destruct r1 as [data1|e1]; [|by apply (Hq 3%nat); [lia|]].
  destruct (json_Unmarshal_Practitioner env data1) as [practitioner|e1];
    [|by apply (Hq 3%nat); [lia|]].
  destruct (has_given_name (pr_Name practitioner)); [|by apply (Hq 3%nat); [lia|]].
  cbn [negb]. unfold bind at 1.
  destruct (fetchDataWithRetry_spec env (baseR4 +:+ Reference (enc_Subject enc)) 3 w1)
    as (k2 & r2 & w2 & E2 & _).
  rewrite E2. pose proof (fetch_budget_retry _ _ _ _ E2) as F2.
  pose proof (fetch_budget_trans _ _ _ _ _ F1 F2) as F12. simpl in F12.
  destruct r2 as [data2|e2]; [|by apply (Hq 6%nat); [lia|]].
  destruct (json_Unmarshal_Patient env data2) as [patient|e2]; [|by apply (Hq 6%nat); [lia|]].
  destruct (has_given_name (pt_Name patient)); [|by apply (Hq 6%nat); [lia|]].
  cbn [negb]. unfold bind at 1.
  match goal with
  | |- context [sendToSQS env ?m clientID w2] =>
      pose proof (sendToSQS_outcome env m clientID w2) as Hout;
      destruct (sendToSQS env m clientID w2) as [[e|] w3|w3|w3]
  end.
  - destruct Hout as (_ & _ & _ & d3 & Ht3 & _ & Hc3).
    apply (Hq 6%nat); [lia|].
    apply (fetch_budget_weaken (6 + 0)); [lia|].
    apply (fetch_budget_trans _ _ _ w2); [done|].
    exists d3. split; [done|]. lia.
  - destruct Hout as (_ & _ & body & _ & Ht3 & _). simpl.
    apply (fetch_budget_weaken (6 + 0)); [lia|].
    apply (fetch_budget_trans _ _ _ w2); [done|]. eexists. by split.
  - destruct Hout as [-> _]. exact F12.
  - done.
Qed.

End BatchBudget.

Section DayProperties.

Variable env : Env.

Lemma quarantines_not_strings fullUrl delta :
  forallb (quarantines fullUrl) delta = true ->
  forallb (fun e => negb (touches_strings e)) delta = true.
Proof.
  induction delta as [|e delta IH]; [done|]. simpl.
  intros H. apply andb_prop in H as [He Hd]. rewrite IH by done.
  by destruct e.
Qed.

(** What a batch of [n] entries costs and what it leaves alone. *)
Lemma fanout_effects entries i w :
  strings (final (fanout env i entries w)) = strings w /\
  (length (queue (final (fanout env i entries w))) <= length (queue w) + length entries)%nat /\
  exists delta,
    trace (final (fanout env i entries w)) = trace w ++ delta /\
    (count is_fetch delta <= 6 * length entries)%nat /\
    (count is_sadd delta <= length entries)%nat /\
    (count is_send delta <= length entries)%nat /\
    forallb (fun e => negb (touches_strings e)) delta = true.
Proof.
  revert i w. induction entries as [|e entries IH]; intros i w.
  - simpl. split; [done|]. split; [lia|]. exists []. by rewrite app_nil_r.
  - cbn [fanout]. unfold bind.
    destruct (processEncounter_frame_counts env (Resource e) (FullUrl e) (clientIDFor i) w)
      as (nq & ns & Hnq & Hns & (d & Ht & Hf & Hcq & Hcs) & Hstr & _ & _ & Hqu).
    destruct (processEncounter_fetch_budget env (Resource e) (FullUrl e) (clientIDFor i) w)
      as (d' & Ht' & Hcf).
    assert (d' = d) as -> by (rewrite Ht in Ht'; by apply app_inv_head in Ht').
    apply quarantines_not_strings in Hf.
    assert (Hlen : (length (queue (final (processEncounter env (Resource e) (FullUrl e)
                                            (clientIDFor i) w)))
                    <= length (queue w) + 1)%nat).
    { destruct Hqu as [->|[_ [m ->]]]; [lia|]. rewrite length_app. simpl. lia. }
    destruct (processEncounter env (Resource e) (FullUrl e) (clientIDFor i) w)
      as [[] w1|w1|w1]; simpl in Ht, Hstr, Hlen |- *.
    + destruct (IH (S i) w1) as (Hs2 & Hl2 & d2 & Ht2 & Hf2 & Hq2 & Hsn2 & Hn2).
      split; [congruence|]. split; [lia|].
      exists (d ++ d2). rewrite Ht2, Ht, <- app_assoc, !count_app, forallb_app, Hf, Hn2.
      repeat split; try done; lia.
    + split; [done|]. split; [lia|]. exists d. repeat split; try done; lia.
    + split; [done|]. split; [lia|]. exists d. repeat split; try done; lia.
Qed.

(** X11: [processDate] returns nil exactly when the batch was fetched and
    decoded.  What becomes of the entries does not count: each may be
    published, quarantined or dropped, the day still counts as processed. *)
Theorem processDate_nil_iff date w err w' :
  processDate env date w = Done err w' ->
  (err = None <->
   exists data w1 bundle,
     fetchDataWithRetry env (encounterURL date) 3 w = Done (Ok data) w1 /\
     json_Unmarshal_Bundle env data = Ok bundle).
Proof.
  unfold processDate. cbv zeta. unfold bind at 1.
  destruct (fetchDataWithRetry_spec env (encounterURL date) 3 w) as (k & r & w1 & E & _).
  rewrite E. destruct r as [data|e].
  - destruct (json_Unmarshal_Bundle env data) as [bundle|e] eqn:Hdec.
    + intros Hrun. split; [intros _; by exists data, w1, bundle|]. intros _.
      revert Hrun. case_bool_decide; [by intros [= <- _]|].
      unfold bind, ret. by destruct (fanout env 0 (Entry bundle) w1); intros [= <- _].
    + intros [= <- _]. split; [done|]. intros (data' & w1' & bundle & [= <- _] & Hdec').
      congruence.
  - unfold bind, redis_SAdd, ret.
    destruct (redis_fault env (tick w1)); intros [= <- _];
      (split; [done|]); by intros (? & ? & ? & [=] & _).
Qed.

(** X12: when the batch of a day decodes to [n] entries, [processDate] sends
    at most [3 + 6 * n] requests to the server in all, issues at most [n]
    sends and at most [n] quarantine commands, and the queue grows by at
    most [n] messages. *)
Theorem processDate_budget date w data w1 bundle :
  fetchDataWithRetry env (encounterURL date) 3 w = Done (Ok data) w1 ->
  json_Unmarshal_Bundle env data = Ok bundle ->
  let n := length (Entry bundle) in
  let w' := final (processDate env date w) in
  (length (queue w') <= length (queue w) + n)%nat /\
  exists delta,
    trace w' = trace w ++ delta /\
    (count is_fetch delta <= 3 + 6 * n)%nat /\
    (count is_send delta <= n)%nat /\
    (count is_sadd delta <= n)%nat.
Proof.
  intros Hfetch Hdec n w'.
  destruct (fetchDataWithRetry_spec env (encounterURL date) 3 w)
    as (k & r & w1' & E & [Hk _] & Ht & _ & _ & Hq & _).
  rewrite Hfetch in E. injection E as <- <-.
  assert (Hw' : w' = final (fanout env 0 (Entry bundle) w1)).
  { unfold w', processDate. cbv zeta. unfold bind at 1. rewrite Hfetch, Hdec.
    case_bool_decide as Hlen.
    - apply length_zero_iff_nil in Hlen. by rewrite Hlen.
    - unfold bind, ret. by destruct (fanout env 0 (Entry bundle) w1). }
  destruct (fanout_effects (Entry bundle) 0 w1) as (_ & Hl & d & Htd & Hf & Hs & Hsn & _).
  rewrite <- Hw' in Hl, Htd. rewrite Hq in Hl. fold n in Hl, Hf, Hs, Hsn.
  split; [lia|].
  exists (schedule waitTime (encounterURL date) k ++ d).
  rewrite Htd, Ht, <- app_assoc, !count_app, count_fetch_schedule.
  rewrite !schedule_count_0 by done.
  repeat split; try done; lia.
Qed.

(** X13: [processDate] never reads or writes a string key of the store, so
    the cursor is as before whatever happens to the day: however the call
    ends, the string table is unchanged and the trace holds no GET or SET. *)
Theorem processDate_keeps_cursor date w :
  let w' := final (processDate env date w) in
  strings w' = strings w /\
  exists delta,
    trace w' = trace w ++ delta /\
    forallb (fun e => negb (touches_strings e)) delta = true.
Proof.
  intros w'. subst w'.
  set (Q := fun w' : World =>
    strings w' = strings w /\
    exists delta,
      trace w' = trace w ++ delta /\
      forallb (fun e => negb (touches_strings e)) delta = true).
  change (Q (final (processDate env date w))).
  unfold processDate. cbv zeta. unfold bind at 1.
  destruct (fetchDataWithRetry_spec env (encounterURL date) 3 w)
    as (k & r & w1 & E & _ & Ht & Hs & _).
  rewrite E.
  assert (Hsched : forallb (fun e => negb (touches_strings e))
                     (schedule waitTime (encounterURL date) k) = true)
    by (by apply schedule_forallb).
  assert (Hbase : Q w1)
    by (split; [done|]; by exists (schedule waitTime (encounterURL date) k)).
  destruct r as [data|e].
  - destruct (json_Unmarshal_Bundle env data) as [bundle|e]; [|exact Hbase].
    case_bool_decide; [exact Hbase|].
    unfold bind, ret.
    destruct (fanout_effects (Entry bundle) 0 w1) as (Hs2 & _ & d & Htd & _ & _ & _ & Hn).
    destruct (fanout env 0 (Entry bundle) w1) as [[] w2|w2|w2]; unfold Q;
      simpl in Hs2, Htd |- *;
      (split; [congruence|]); exists (schedule waitTime (encounterURL date) k ++ d);
      by rewrite Htd, Ht, <- app_assoc, forallb_app, Hsched, Hn.
  - unfold bind, redis_SAdd, ret.
    destruct (redis_fault env (tick w1)); unfold Q; simpl; (split; [done|]);
      exists (schedule waitTime (encounterURL date) k ++ [EvRedisSAdd "unprocessed_dates" date]);
      by rewrite Ht, <- app_assoc, forallb_app, Hsched.
Qed.

End DayProperties.

Section LoopProperties.

Variable env : Env.

(** A turn of the loop on a day whose batch cannot be fetched. *)
Lemma loop_step_unreachable endDate D w :
  D <= endDate ->
  (forall t, attempt_ok (http_Do env t (encounterURL (time_Format env D))) = None) ->
  exists w',
    loop_step env endDate D w = Done (Some D) w' /\
    strings w' = strings w /\ queue w' = queue w /\
    trace w' = trace w ++ schedule waitTime (encounterURL (time_Format env D)) 3
                       ++ [EvRedisSAdd "unprocessed_dates" (time_Format env D)].
Proof.
  intros Hle Hdown.
  destruct (retry_loop_replies env (encounterURL (time_Format env D)) 3 0 w w) as [_ H].
  { simpl. by rewrite app_nil_r. }
  destruct H as (w1 & E & Ht); [by intros|].
  destruct (fetchDataWithRetry_spec env (encounterURL (time_Format env D)) 3 w)
    as (k & r & w1' & E' & _ & _ & Hs & _ & Hq & _).
  unfold fetchDataWithRetry in E'. change (Z.to_nat 3) with 3%nat in E'.
  change (Z.of_nat 0) with 0 in E. rewrite E in E'. injection E' as <- <-.
  unfold loop_step. rewrite bool_decide_false by lia.
  unfold bind at 1, processDate. cbv zeta. unfold bind at 1, fetchDataWithRetry.
  change (Z.to_nat 3) with 3%nat. rewrite E.
  unfold bind, redis_SAdd, ret.
  destruct (redis_fault env (tick w1)); eexists; (split; [reflexivity|]); simpl;
    rewrite Ht, <- app_assoc; done.
Qed.

(** X14: while the batch of day [D] cannot be fetched, the loop makes no
    progress and does not end: after any number of turns it is still on
    [D], each turn having cost three requests and one SADD unprocessed_dates,
    with the string keys of the store and the queue as at the start. *)
Theorem main_loop_stuck endDate D w fuel :
  D <= endDate ->
  (forall t, attempt_ok (http_Do env t (encounterURL (time_Format env D))) = None) ->
  exists w',
    main_loop env fuel endDate D w = Done (Some D) w' /\
    strings w' = strings w /\ queue w' = queue w /\
    count is_fetch (trace w') = (count is_fetch (trace w) + 3 * fuel)%nat /\
    count is_sadd (trace w') = (count is_sadd (trace w) + fuel)%nat.
Proof.
  intros Hle Hdown. revert w. induction fuel as [|fuel IH]; intros w.
  - exists w. simpl. repeat split; try done; lia.
  - destruct (loop_step_unreachable endDate D w Hle Hdown) as (w1 & E & Hs & Hq & Ht).
    destruct (IH w1) as (w' & E' & Hs' & Hq' & Hcf & Hcs).
    exists w'. cbn [main_loop]. unfold bind. rewrite E.
    split; [exact E'|]. split; [congruence|]. split; [congruence|].
    rewrite Hcf, Hcs, Ht, !count_app, count_fetch_schedule.
    rewrite (schedule_count_0 is_sadd) by done.
    unfold count. simpl. lia.
Qed.

(** X15: when the loop ends and the store applies every command, the cursor
    it leaves is the last day of the range: starting on [cur], not after the
    end date, the stored cursor is the day [cur] plus as many whole days as
    fit before the end date. *)
Theorem main_loop_final_cursor fuel endDate cur w w' :
  (forall t, redis_fault env t = None) ->
  cur <= endDate ->
  main_loop env fuel endDate cur w = Done None w' ->
  strings w' !! "last_processed_date"
  = Some (time_Format env (cur + (endDate - cur) `div` day * day)).
Proof.
  intros Hstore. revert cur w. induction fuel as [|fuel IH]; intros cur w Hle; [done|].
  cbn [main_loop]. unfold bind at 1, loop_step.
  rewrite bool_decide_false by lia. unfold bind at 1.
  destruct (processDate env (time_Format env cur) w) as [[e|] w1|w1|w1]; try done.
  - unfold ret at 1. apply IH. done.
  - unfold bind at 1, redis_Set. rewrite Hstore. unfold ret at 1.
    set (w2 := {| trace := _; strings := _; sets := _; queue := _ |}).
    destruct (Z.le_gt_cases (cur + day) endDate) as [Hnext|Hlast].
    + intros Hrest. rewrite (IH _ _ Hnext Hrest). do 2 f_equal.
      unfold day. Z.div_mod_to_equations. lia.
    + destruct fuel as [|fuel]; [done|].
      cbn [main_loop]. unfold bind, loop_step. rewrite bool_decide_true by lia.
      unfold ret. intros [= <-]. unfold w2. simpl. rewrite lookup_insert_eq.
      do 2 f_equal. assert (H0 : (endDate - cur) `div` day = 0).
      { apply Z.div_small. unfold day in *. lia. }
      rewrite H0. lia.
Qed.

(** X16: whenever the start-up of [main] returns, the log writer was set up,
    START_DATE and END_DATE were both set, the end date is END_DATE parsed,
    the store answered the one command issued, GET last_processed_date, and
    nothing was written.  The run starts from START_DATE parsed when the
    cursor is missing or empty, and from the cursor parsed otherwise; in
    both cases START_DATE itself had to parse. *)
Theorem resume_returns w cur endDate w1 :
  resume env w = Done (cur, endDate) w1 ->
  rotatelogs_New env = None /\
  os_Getenv env "START_DATE" <> "" /\ os_Getenv env "END_DATE" <> "" /\
  (exists startDate, time_Parse env (os_Getenv env "START_DATE") = Ok startDate) /\
  time_Parse env (os_Getenv env "END_DATE") = Ok endDate /\
  redis_fault env (tick w) = None /\
  w1 = emit (EvRedisGet "last_processed_date") w /\
  time_Parse env
    (if bool_decide (default "" (strings w !! "last_processed_date") = "")
     then os_Getenv env "START_DATE"
     else default "" (strings w !! "last_processed_date"))
  = Ok cur.
Proof.
  unfold resume, initLogger, initCache, bind, ret, log_Fatal.
  destruct (rotatelogs_New env); [done|].
  destruct (bool_decide (os_Getenv env "START_DATE" = "")) eqn:Hs; [done|].
  destruct (bool_decide (os_Getenv env "END_DATE" = "")) eqn:He; [done|].
  apply bool_decide_eq_false in Hs, He. simpl.
  destruct (time_Parse env (os_Getenv env "START_DATE")) as [startDate|] eqn:Hps; [|done].
  destruct (time_Parse env (os_Getenv env "END_DATE")) as [endDate'|] eqn:Hpe; [|done].
  unfold redis_Get. destruct (redis_fault env (tick w)); [done|].
  case_bool_decide as Hcur.
  - intros [= <- <- <-]. repeat split; try done. by exists startDate.
  - destruct (time_Parse env (default "" (strings w !! "last_processed_date"))) eqn:Hpc;
      [|done].
    intros [= <- <- <-]. repeat split; try done. by exists startDate.
Qed.

End LoopProperties.

Section Siblings.

Variable env : Env.

Lemma processEncounter_returns enc fullUrl clientID w :
  os_Getenv env "SQS_QUEUE_URL" <> "" ->
  enc_Participant enc <> Some [] ->
  exists w', processEncounter env enc fullUrl clientID w = Done tt w'.
Proof.
  intros Hurl Hpart.
  destruct (missing_field enc fullUrl) eqn:Hmf.
  { destruct (processEncounter_missing_field env enc fullUrl clientID w Hmf) as (w' & E & _).
    by exists w'. }
  destruct (missing_field_false _ _ Hmf) as (_ & _ & Hnil & Hsubj & _).
  destruct (enc_Participant enc) as [[|p0 ps]|] eqn:Hp; try done.
  destruct (decide (Reference (Individual p0) = "")) as [Href|Href].
  { exists w. unfold processEncounter. by rewrite Hmf, Hp, (bool_decide_true _ Href). }
  assert (Hvalid : valid_candidate enc fullUrl (Reference (Individual p0))).
  { split; [done|]. split; [|done]. by exists p0, ps. }
  destruct (fetchDataWithRetry_spec env (baseR4 +:+ Reference (Individual p0)) 3 w)
    as (k1 & r1 & w1 & E1 & _).
  destruct (fetchDataWithRetry_spec env (baseR4 +:+ Reference (enc_Subject enc)) 3 w1)
    as (k2 & r2 & w2 & E2 & _).
  rewrite (processEncounter_valid env enc fullUrl clientID _ w r1 w1 r2 w2 Hvalid E1 E2).
  destruct (resolved (json_Unmarshal_Practitioner env) pr_Name r1) as [practitioner|].
  2: { destruct (quarantine_spec env fullUrl w1) as (w' & E & _). by exists w'. }
  destruct (resolved (json_Unmarshal_Patient env) pt_Name r2) as [patient|].
  2: { destruct (quarantine_spec env fullUrl w2) as (w' & E & _). by exists w'. }
  unfold bind at 1.
  pose proof (sendToSQS_outcome env (enriched enc fullUrl practitioner patient) clientID w2)
    as Hout.
  destruct (sendToSQS env (enriched enc fullUrl practitioner patient) clientID w2)
    as [[e|] w3|w3|w3].
  - destruct (quarantine_spec env fullUrl w3) as (w' & E & _). by exists w'.
  - by exists w3.
  - by destruct Hout as [_ ?].
  - done.
Qed.

(** X17: no record aborts its siblings or the day.  With SQS_QUEUE_URL set
    and no entry whose participant array is present and empty, the calls
    for all the entries of a batch return, whatever the server, the store
    and the queue answer: a record that cannot be enriched or published is
    quarantined or dropped and the batch goes on. *)
Theorem fanout_completes entries i w :
  os_Getenv env "SQS_QUEUE_URL" <> "" ->
  Forall (fun entry => enc_Participant (Resource entry) <> Some []) entries ->
  exists w', fanout env i entries w = Done tt w'.
Proof.
  intros Hurl Hall. revert i w. induction Hall as [|e entries He _ IH]; intros i w.
  - by exists w.
  - cbn [fanout]. unfold bind.
    destruct (processEncounter_returns (Resource e) (FullUrl e) (clientIDFor i) w Hurl He)
      as [w1 ->].
    apply IH.
Qed.

End Siblings.

(** ** The further properties on the concrete world *)

(** X1 at work: two attempts time out, the third is answered. *)
Lemma fetchDataWithRetry_first_success_witness :
  (2 < Z.to_nat 3)%nat /\
  (forall j, (j < 2)%nat ->
             attempt_ok (http_Do upstream_slow (tick w0 + 2 * j) (encounterURL "2025-01-01"))
             = None) /\
  attempt_ok (http_Do upstream_slow (tick w0 + 2 * 2) (encounterURL "2025-01-01"))
  = Some "bundle-two" /\
  exists w',
    fetchDataWithRetry upstream_slow (encounterURL "2025-01-01") 3 w0
    = Done (Ok "bundle-two") w' /\
    trace w' = trace w0 ++ schedule waitTime (encounterURL "2025-01-01") 3 /\
    count is_fetch (schedule waitTime (encounterURL "2025-01-01") 3) = 3%nat.
Proof.
  assert (H1 : (2 < Z.to_nat 3)%nat) by (simpl; lia).
  assert (H2 : forall j, (j < 2)%nat ->
             attempt_ok (http_Do upstream_slow (tick w0 + 2 * j) (encounterURL "2025-01-01"))
             = None).
  { intros j Hj. destruct j as [|[|j]]; [reflexivity|reflexivity|lia]. }
  assert (H3 : attempt_ok (http_Do upstream_slow (tick w0 + 2 * 2)
                             (encounterURL "2025-01-01")) = Some "bundle-two")
    by reflexivity.
  repeat (split; [assumption|]).
  exact (fetchDataWithRetry_first_success upstream_slow (encounterURL "2025-01-01") 3 w0 2
           "bundle-two" H1 H2 H3).
Defined.

(** X2 at work: every attempt is answered with status 500. *)
Lemma fetchDataWithRetry_exhausted_witness :
  (forall j, (j < Z.to_nat 3)%nat ->
             attempt_ok (http_Do upstream_down (tick w0 + 2 * j) (encounterURL "2025-01-01"))
             = None) /\
  exists w',
    fetchDataWithRetry upstream_down (encounterURL "2025-01-01") 3 w0
    = Done (Err (ErrNew "All attempts were failed")) w' /\
    trace w' = trace w0 ++ schedule waitTime (encounterURL "2025-01-01") (Z.to_nat 3) /\
    count is_fetch (schedule waitTime (encounterURL "2025-01-01") (Z.to_nat 3)) = Z.to_nat 3 /\
    (3 <= 0 -> w' = w0).
Proof.
  assert (H : forall j, (j < Z.to_nat 3)%nat ->
             attempt_ok (http_Do upstream_down (tick w0 + 2 * j) (encounterURL "2025-01-01"))
             = None) by (intros; reflexivity).
  split; [exact H|].
  exact (fetchDataWithRetry_exhausted upstream_down (encounterURL "2025-01-01") 3 w0 H).
Defined.

(** X3 at work: three failed attempts cost six seconds of sleep. *)
Lemma fetchDataWithRetry_total_sleep_witness :
  1 <= 3 <= 34 /\
  exists w',
    fetchDataWithRetry upstream_down (encounterURL "2025-01-01") 3 w0
    = Done (Err (ErrNew "All attempts were failed")) w' /\
    exists delta,
      trace w' = trace w0 ++ delta /\
      0 <= slept delta <= (2 ^ 3 - 2) * Second /\
      slept delta = (2 ^ 3 - 2) * Second.
Proof.
  split; [lia|]. eexists. split; [reflexivity|].
  refine (fetchDataWithRetry_total_sleep upstream_down (encounterURL "2025-01-01") 3 w0
            (Err (ErrNew "All attempts were failed")) _ _ _); [lia|reflexivity].
Defined.

(** X6 at work: the id at the end of a practitioner URL. *)
Lemma extractReferenceID_last_segment_witness :
  has_slash "p1" = false /\
  extractReferenceID ("https://hapi.fhir.org/baseR4/Practitioner" +:+ "/" +:+ "p1") = "p1".
Proof.
  split; [reflexivity|].
  apply (extractReferenceID_last_segment "https://hapi.fhir.org/baseR4/Practitioner" "p1").
  reflexivity.
Defined.

(** X7 at work: an encounter without status. *)
Lemma processEncounter_validation_failure_witness :
  lacks_required_field enc_no_status url_e2 /\
  enc_Participant enc_no_status <> Some [] /\
  exists w',
    processEncounter healthy enc_no_status url_e2 "002" w0 = Done tt w' /\
    trace w' = trace w0 ++ [EvRedisSAdd "invalid_encounters" url_e2] /\
    strings w' = strings w0 /\ queue w' = queue w0 /\
    (redis_fault healthy (tick w0) = None -> url_e2 ∈ smembers "invalid_encounters" w').
Proof.
  assert (H1 : lacks_required_field enc_no_status url_e2) by (left; reflexivity).
  assert (H2 : enc_Participant enc_no_status <> Some []) by discriminate.
  split; [exact H1|]. split; [exact H2|].
  exact (processEncounter_validation_failure healthy enc_no_status url_e2 "002" w0 H1 H2).
Defined.

(** X8 at work: an encounter whose first participant has no reference. *)
Lemma fanout_blank_practitioners_witness :
  Forall (fun entry =>
            missing_field (Resource entry) (FullUrl entry) = false /\
            exists p0 ps, enc_Participant (Resource entry) = Some (p0 :: ps) /\
                          Reference (Individual p0) = "")
    [ {| FullUrl := url_e1; Resource := enc_blank_doctor |} ] /\
  fanout healthy 0 [ {| FullUrl := url_e1; Resource := enc_blank_doctor |} ] w0 = Done tt w0.
Proof.
  assert (H : Forall (fun entry =>
                missing_field (Resource entry) (FullUrl entry) = false /\
                exists p0 ps, enc_Participant (Resource entry) = Some (p0 :: ps) /\
                              Reference (Individual p0) = "")
                [ {| FullUrl := url_e1; Resource := enc_blank_doctor |} ]).
  { repeat constructor. eexists _, _. split; reflexivity. }
  split; [exact H|].
  exact (fanout_blank_practitioners healthy _ 0 w0 H).
Defined.

(** X9 at work: the queue refuses the send. *)
Lemma processEncounter_publish_failure_witness :
  let w1 := final (fetchDataWithRetry queue_down (baseR4 +:+ "Practitioner/p1") 3 w0) in
  let w2 := final (fetchDataWithRetry queue_down
                     (baseR4 +:+ Reference (enc_Subject enc_ok)) 3 w1) in
  let w3 := final (sendToSQS queue_down (enriched enc_ok url_e1 practitioner_p1 patient_q1)
                     "001" w2) in
  valid_candidate enc_ok url_e1 "Practitioner/p1" /\
  fetchDataWithRetry queue_down (baseR4 +:+ "Practitioner/p1") 3 w0
  = Done (Ok "practitioner-p1") w1 /\
  resolved (json_Unmarshal_Practitioner queue_down) pr_Name (Ok "practitioner-p1")
  = Some practitioner_p1 /\
  fetchDataWithRetry queue_down (baseR4 +:+ Reference (enc_Subject enc_ok)) 3 w1
  = Done (Ok "patient-q1") w2 /\
  resolved (json_Unmarshal_Patient queue_down) pt_Name (Ok "patient-q1") = Some patient_q1 /\
  sendToSQS queue_down (enriched enc_ok url_e1 practitioner_p1 patient_q1) "001" w2
  = Done (Some (ErrWrap "error sending message to SQS: " (ErrNew "connection refused"))) w3 /\
  exists w',
    processEncounter queue_down enc_ok url_e1 "001" w0 = Done tt w' /\
    trace w' = trace w3 ++ [EvRedisSAdd "invalid_encounters" url_e1] /\
    queue w' = queue w0 /\
    (redis_fault queue_down (tick w3) = None -> url_e1 ∈ smembers "invalid_encounters" w').
Proof.
  intros w1 w2 w3.
  assert (Hv : valid_candidate enc_ok url_e1 "Practitioner/p1").
  { split; [reflexivity|]. split; [|discriminate]. eexists _, _. split; reflexivity. }
  assert (H1 : fetchDataWithRetry queue_down (baseR4 +:+ "Practitioner/p1") 3 w0
               = Done (Ok "practitioner-p1") w1) by (vm_compute; reflexivity).
  assert (H2 : resolved (json_Unmarshal_Practitioner queue_down) pr_Name
                 (Ok "practitioner-p1") = Some practitioner_p1) by reflexivity.
  assert (H3 : fetchDataWithRetry queue_down (baseR4 +:+ Reference (enc_Subject enc_ok)) 3 w1
               = Done (Ok "patient-q1") w2) by (vm_compute; reflexivity).
  assert (H4 : resolved (json_Unmarshal_Patient queue_down) pt_Name (Ok "patient-q1")
               = Some patient_q1) by reflexivity.
  assert (H5 : sendToSQS queue_down (enriched enc_ok url_e1 practitioner_p1 patient_q1)
                 "001" w2
               = Done (Some (ErrWrap "error sending message to SQS: "
                               (ErrNew "connection refused"))) w3)
    by (vm_compute; reflexivity).
  repeat (split; [assumption|]).
  exact (processEncounter_publish_failure queue_down enc_ok url_e1 "001" "Practitioner/p1"
           w0 _ w1 _ w2 practitioner_p1 patient_q1 _ w3 Hv H1 H2 H3 H4 H5).
Defined.

(** X11 at work: a batch that is fetched and does not decode. *)
Lemma processDate_nil_iff_witness :
  exists w',
    processDate upstream_html "2025-01-01" w0
    = Done (Some (ErrWrap "erro ao parsear JSON de encontros: " syntax_error)) w' /\
    (Some (ErrWrap "erro ao parsear JSON de encontros: " syntax_error) = None <->
     exists data w1 bundle,
       fetchDataWithRetry upstream_html (encounterURL "2025-01-01") 3 w0 = Done (Ok data) w1 /\
       json_Unmarshal_Bundle upstream_html data = Ok bundle).
Proof.
  eexists. split; [reflexivity|].
  refine (processDate_nil_iff upstream_html "2025-01-01" w0 _ _ _). reflexivity.
Defined.

(** X12 at work: the batch of two entries of 2025-01-01. *)
Lemma processDate_budget_witness :
  exists w1,
    fetchDataWithRetry healthy (encounterURL "2025-01-01") 3 w0 = Done (Ok "bundle-two") w1 /\
    json_Unmarshal_Bundle healthy "bundle-two" = Ok bundle_two /\
    (length (queue (final (processDate healthy "2025-01-01" w0)))
     <= length (queue w0) + length (Entry bundle_two))%nat /\
    exists delta,
      trace (final (processDate healthy "2025-01-01" w0)) = trace w0 ++ delta /\
      (count is_fetch delta <= 3 + 6 * length (Entry bundle_two))%nat /\
      (count is_send delta <= length (Entry bundle_two))%nat /\
      (count is_sadd delta <= length (Entry bundle_two))%nat.
Proof.
  eexists. split; [reflexivity|]. split; [reflexivity|].
  refine (processDate_budget healthy "2025-01-01" w0 "bundle-two" _ bundle_two _ _);
    reflexivity.
Defined.

(** X14 at work: four turns against a server that is down. *)
Lemma main_loop_stuck_witness :
  jan1 <= jan2 /\
  (forall t, attempt_ok (http_Do upstream_down t (encounterURL (time_Format upstream_down jan1)))
             = None) /\
  exists w',
    main_loop upstream_down 4 jan2 jan1 w0 = Done (Some jan1) w' /\
    strings w' = strings w0 /\ queue w' = queue w0 /\
    count is_fetch (trace w') = (count is_fetch (trace w0) + 3 * 4)%nat /\
    count is_sadd (trace w') = (count is_sadd (trace w0) + 4)%nat.
Proof.
  assert (H1 : jan1 <= jan2) by (unfold jan1, jan2; lia).
  assert (H2 : forall t, attempt_ok (http_Do upstream_down t
                                       (encounterURL (time_Format upstream_down jan1))) = None)
    by (intros; reflexivity).
  split; [exact H1|]. split; [exact H2|].
  exact (main_loop_stuck upstream_down jan2 jan1 w0 4 H1 H2).
Defined.

(** X15 at work: the range 2025-01-01 to 2025-01-02. *)
Lemma main_loop_final_cursor_witness :
  (forall t, redis_fault healthy t = None) /\
  jan1 <= jan2 /\
  main_loop healthy 5 jan2 jan1 w0 = Done None (final (main_loop healthy 5 jan2 jan1 w0)) /\
  strings (final (main_loop healthy 5 jan2 jan1 w0)) !! "last_processed_date"
  = Some (time_Format healthy (jan1 + (jan2 - jan1) `div` day * day)).
Proof.
  assert (H1 : forall t, redis_fault healthy t = None) by (intros; reflexivity).
  assert (H2 : jan1 <= jan2) by (unfold jan1, jan2; lia).
  assert (H3 : main_loop healthy 5 jan2 jan1 w0
               = Done None (final (main_loop healthy 5 jan2 jan1 w0)))
    by (vm_compute; reflexivity).
  repeat (split; [assumption|]).
  exact (main_loop_final_cursor healthy 5 jan2 jan1 w0 _ H1 H2 H3).
Defined.

(** X16 at work: a start-up that finds the cursor 2025-01-01. *)
Lemma resume_returns_witness :
  resume healthy w_resume
  = Done (jan1, jan2) (emit (EvRedisGet "last_processed_date") w_resume) /\
  rotatelogs_New healthy = None /\
  os_Getenv healthy "START_DATE" <> "" /\ os_Getenv healthy "END_DATE" <> "" /\
  (exists startDate, time_Parse healthy (os_Getenv healthy "START_DATE") = Ok startDate) /\
  time_Parse healthy (os_Getenv healthy "END_DATE") = Ok jan2 /\
  redis_fault healthy (tick w_resume) = None /\
  emit (EvRedisGet "last_processed_date") w_resume
  = emit (EvRedisGet "last_processed_date") w_resume /\
  time_Parse healthy
    (if bool_decide (default "" (strings w_resume !! "last_processed_date") = "")
     then os_Getenv healthy "START_DATE"
     else default "" (strings w_resume !! "last_processed_date"))
  = Ok jan1.
Proof.
  assert (H : resume healthy w_resume
              = Done (jan1, jan2) (emit (EvRedisGet "last_processed_date") w_resume))
    by (vm_compute; reflexivity).
  split; [exact H|].
  exact (resume_returns healthy w_resume jan1 jan2 _ H).
Defined.

(** X17 at work: the store is down and the batch still completes. *)
Lemma fanout_completes_witness :
  os_Getenv store_down "SQS_QUEUE_URL" <> "" /\
  Forall (fun entry => enc_Participant (Resource entry) <> Some []) (Entry bundle_two) /\
  exists w', fanout store_down 0 (Entry bundle_two) w0 = Done tt w'.
Proof.
  assert (H1 : os_Getenv store_down "SQS_QUEUE_URL" <> "") by discriminate.
  assert (H2 : Forall (fun entry => enc_Participant (Resource entry) <> Some [])
                 (Entry bundle_two)).
  { repeat constructor; discriminate. }
  split; [exact H1|]. split; [exact H2|].
  exact (fanout_completes store_down (Entry bundle_two) 0 w0 H1 H2).
Defined.
